(** * Harshi-App: curriculum conversion pipeline and structure validator

    A shallow embedding of [scripts/convert_to_csv.py] and
    [scripts/validate_structure.py], and the properties of the
    specification that are settled on it.

    Conventions of the embedding:
    - a Python [str] is a [string], a sequence of bytes: the characters the
      scripts single out - space, apostrophe, hyphen, underscore, dot,
      slash - are ASCII, so UTF-8 text is handled bytewise; white space and
      letters outside ASCII are plain bytes to [strip] and [title];
    - a row record (a Python [dict] from field name to text) is a
      [gmap string string];
    - a [dict] whose iteration order matters ([by_topic], [mapping]) is an
      insertion-ordered association list with unique keys ([odict]);
    - code with effects (console, file system, the global [report],
      exceptions) runs in a state-and-exception monad [M];
    - what the scripts get from outside is an input of the model: the
      outcome of [openpyxl.load_workbook] for a path, the workbooks that
      [glob] finds, the answers of the directory tree to the validator's
      queries, each of which may be an exception;
    - a CSV file is held as the rows handed to the [csv] writer, and the
      validator's output as the report handed to [json.dumps]: the text
      the two libraries make of them is not modelled. *)

From stdpp Require Import base option list strings gmap pretty.
From Stdlib Require Import Ascii.

(** ** Python built-ins used by the scripts *)

Module Py.

(** [str.replace(old, new)] where [old] is a single character, which is
    the only way the scripts call it. *)
Fixpoint replace (old : ascii) (new : string) (s : string) : string :=
  match s with
  | EmptyString => EmptyString
  | String c s' =>
      if decide (c = old) then new +:+ replace old new s'
      else String c (replace old new s')
  end.

(** ASCII white space as [str.isspace] sees it: TAB, LF, VT, FF, CR, the
    separators FS, GS, RS, US and the space. *)
Definition isspace (c : ascii) : bool :=
  let n := nat_of_ascii c in
  (Nat.leb 9 n && Nat.leb n 13) || (Nat.leb 28 n && Nat.leb n 32).

Fixpoint lstrip (s : string) : string :=
  match s with
  | String c s' => if isspace c then lstrip s' else s
  | EmptyString => EmptyString
  end.

Definition rstrip (s : string) : string :=
  String.rev (lstrip (String.rev s)).

(** [str.strip()] *)
Definition strip (s : string) : string := rstrip (lstrip s).

Definition isupper (c : ascii) : bool :=
  let n := nat_of_ascii c in Nat.leb 65 n && Nat.leb n 90.
Definition islower (c : ascii) : bool :=
  let n := nat_of_ascii c in Nat.leb 97 n && Nat.leb n 122.
Definition upper (c : ascii) : ascii :=
  if islower c then ascii_of_nat (nat_of_ascii c - 32) else c.
Definition lower (c : ascii) : ascii :=
  if isupper c then ascii_of_nat (nat_of_ascii c + 32) else c.

(** [str.title()]: a cased character is upper-cased when the character
    before it is not cased and lower-cased otherwise.  Only the ASCII
    letters are taken as cased. *)
Fixpoint title_from (previous_is_cased : bool) (s : string) : string :=
  match s with
  | EmptyString => EmptyString
  | String c s' =>
      if islower c || isupper c then
        String (if previous_is_cased then lower c else upper c)
               (title_from true s')
      else String c (title_from false s')
  end.
Definition title (s : string) : string := title_from false s.

(** Truthiness of a [str]: [if s:] / [if not s:]. *)
Definition truthy (s : string) : bool :=
  match s with EmptyString => false | _ => true end.

(** [s.endswith(suffix)] *)
Definition endswith (s suffix : string) : bool :=
  bool_decide (String.substring (String.length s - String.length suffix)
                                (String.length suffix) s = suffix)
  && Nat.leb (String.length suffix) (String.length s).

End Py.

(** ** Rows and insertion-ordered dictionaries *)

(** A row record: [dict] from field name to text. *)
Abbreviation row := (gmap string string).

(** [d.get(key, default)] *)
Definition get (r : row) (key default : string) : string :=
from_option id default (r !! key).

(** [key in d] *)
Definition has_key (r : row) (key : string) : bool :=
bool_decide (is_Some (r !! key)).

(** [a or b] on text. *)
Definition por (a b : string) : string := if Py.truthy a then a else b.

(** A [dict] iterated in insertion order: an association list in which
  every key occurs once. *)
Section odict.
Context {V : Type}.

(** [d.get(k)] *)
Fixpoint od_get (k : string) (d : list (string * V)) : option V :=
  match d with
  | [] => None
  | (k', v) :: d' => if decide (k' = k) then Some v else od_get k d'
  end.

(** [k in d] *)
Definition od_mem (k : string) (d : list (string * V)) : bool :=
  bool_decide (is_Some (od_get k d)).

(** [d[k] = v]: a known key keeps its position, a new one goes last. *)
Fixpoint od_set (k : string) (v : V) (d : list (string * V))
  : list (string * V) :=
  match d with
  | [] => [(k, v)]
  | (k', v') :: d' =>
      if decide (k' = k) then (k, v) :: d' else (k', v') :: od_set k v d'
  end.

(** In-place update of the value stored under [k] (as [d[k].append(x)]
    or [d[k][j] = y] do). *)
Fixpoint od_alter (f : V → V) (k : string) (d : list (string * V))
  : list (string * V) :=
  match d with
  | [] => []
  | (k', v') :: d' =>
      if decide (k' = k) then (k', f v') :: d'
      else (k', v') :: od_alter f k d'
  end.
End odict.

Abbreviation odict V := (list (string * V)).

(** ** Paths ([pathlib.PurePosixPath]) *)

Module PathLib.

(** An absolute path, as the list of its parts below the root. *)
Abbreviation path := (list string).

(** [s.split('/')] *)
Fixpoint split_slash (s : string) : list string :=
  match s with
  | EmptyString => [EmptyString]
  | String c s' =>
      if decide (c = "/"%char) then EmptyString :: split_slash s'
      else match split_slash s' with
           | w :: ws => String c w :: ws
           | [] => [String c EmptyString]
           end
  end.

(** The parts of a path segment: empty parts and [.] collapse. *)
Definition parts (s : string) : list string :=
  filter (λ c, c ≠ "" ∧ c ≠ ".") (split_slash s).

Definition is_absolute (s : string) : bool :=
  match s with
  | String c _ => bool_decide (c = "/"%char)
  | EmptyString => false
  end.

(** [p / s]: an absolute segment replaces the path it is joined to. *)
Definition joinpath (p : path) (s : string) : path :=
  if is_absolute s then parts s else p ++ parts s.

(** [p.name] *)
Definition name (p : path) : string := List.last p "".

(** [p.parent] *)
Definition parent (p : path) : path := removelast p.

Fixpoint join_slash (l : list string) : string :=
  match l with
  | [] => ""
  | [c] => c
  | c :: l' => c +:+ "/" +:+ join_slash l'
  end.

(** [str(p)] for an absolute path. *)
Definition str (p : path) : string := "/" +:+ join_slash p.

(** [str(p)] for a relative path, as [relative_to] returns. *)
Definition str_relative (p : path) : string :=
  match p with [] => "." | _ => join_slash p end.

(** [s.rfind(c)] *)
Fixpoint rfind (c : ascii) (s : string) : option nat :=
  match s with
  | EmptyString => None
  | String a s' =>
      match rfind c s' with
      | Some i => Some (S i)
      | None => if decide (a = c) then Some 0 else None
      end
  end.

(** The index of the dot that starts the last suffix of a file name:
    neither the first nor the last character of the name. *)
Definition suffix_index (name : string) : option nat :=
  match rfind "."%char name with
  | Some i =>
      if Nat.ltb 0 i && Nat.ltb i (String.length name - 1) then Some i
      else None
  | None => None
  end.

(** [p.suffix] *)
Definition suffix (p : path) : string :=
  match suffix_index (name p) with
  | Some i => String.substring i (String.length (name p) - i) (name p)
  | None => ""
  end.

(** [p.stem] *)
Definition stem (p : path) : string :=
  match suffix_index (name p) with
  | Some i => String.substring 0 i (name p)
  | None => name p
  end.

End PathLib.

Infix "//" := PathLib.joinpath (at level 40, left associativity).

(** ** Effects: state and exceptions *)

(** An exception derived from [Exception], with the text [str(e)]. *)
Inductive exn := Exception (msg : string).

Definition exn_str (e : exn) : string := let 'Exception msg := e in msg.

Inductive result (A : Type) :=
| Ok (a : A)
| Raise (e : exn).
Arguments Ok {A} a.
Arguments Raise {A} e.

(** A computation over a mutable state [S] that returns or raises; what it
    did to the state before raising stays done. *)
Definition M (S A : Type) : Type := S → S * result A.

Definition ret {S A} (a : A) : M S A := λ s, (s, Ok a).

Definition bind {S A B} (m : M S A) (k : A → M S B) : M S B :=
  λ s, match m s with
       | (s', Ok a) => k a s'
       | (s', Raise e) => (s', Raise e)
       end.

Definition raise {S A} (e : exn) : M S A := λ s, (s, Raise e).

(** The outcome of a call into the environment. *)
Definition lift {S A} (r : result A) : M S A := λ s, (s, r).

Definition modify {S} (f : S → S) : M S unit := λ s, (f s, Ok tt).

(** [try: body except Exception as e: handler(e)] *)
Definition try_except {S A} (body : M S A) (handler : exn → M S A) : M S A :=
  λ s, match body s with
       | (s', Ok a) => (s', Ok a)
       | (s', Raise e) => handler e s'
       end.

#[global] Instance M_ret {S} : MRet (M S) := @ret S.
#[global] Instance M_bind {S} : MBind (M S) := λ A B k m, bind m k.

(** [for x in xs: body(x)] *)
Fixpoint for_each {S A} (xs : list A) (body : A → M S unit) : M S unit :=
  match xs with
  | [] => ret tt
  | x :: xs' => bind (body x) (λ _, for_each xs' body)
  end.

(** ** [scripts/convert_to_csv.py] *)

Module ConvertToCsv.
Import PathLib.

(** A cell value as [openpyxl] hands it over: [None], or a value given by
    the text [str] makes of it. *)
Abbreviation cell := (option string).

(** A worksheet: its rows from the first one on, each a list of cells. *)
Abbreviation sheet := (list (list cell)).

(** A workbook: its sheets under their names ([wb.sheetnames] in order). *)
Abbreviation workbook := (list (string * sheet)).

(** A node of the file system; a CSV file holds the rows handed to the
    [csv] writer, each a list of fields. *)
Inductive node :=
| Directory
| File (content : list (list string)).

#[global] Instance node_eq_dec : EqDecision node.
Proof. solve_decision. Defined.

(** What the pipeline acts on: the console and the file system. *)
Record world := World {
  console : list string;
  fs : gmap path node
}.

(** [print(line)] *)
Definition print (line : string) : M world unit :=
  modify (λ w, World (console w ++ [line]) (fs w)).

Definition set_fs (f : gmap path node → gmap path node) : M world unit :=
  modify (λ w, World (console w) (f (fs w))).

Definition is_file (o : option node) : bool :=
  match o with Some (File _) => true | _ => false end.

Definition is_dir (m : gmap path node) (p : path) : bool :=
  match p with
  | [] => true
  | _ => bool_decide (m !! p = Some Directory)
  end.

(** The path and the directories above it, the root left out. *)
Definition prefixes (p : path) : list path :=
  (λ n, take n p) <$> seq 1 (length p).

(** The directories of [dirs] made in [m]. *)
Definition make_directories (dirs : list path) (m : gmap path node)
  : gmap path node :=
  foldr (λ q m', <[q := Directory]> m') m dirs.

(** [p.mkdir(parents=True, exist_ok=True)]: fails when the path or a
    directory above it is a regular file. *)
Definition mkdir_parents (p : path) : M world unit :=
  λ w, match List.find (λ q, is_file (fs w !! q)) (prefixes p) with
       | Some q =>
           (w, Raise (Exception
                 ((if bool_decide (q = p) then "[Errno 17] File exists: '"
                   else "[Errno 20] Not a directory: '") +:+ str p +:+ "'")))
       | None =>
           set_fs (make_directories (prefixes p)) w
       end.

(** [open(p, 'w')]: creates the file or truncates the one that is there. *)
Definition open_w (p : path) : M world unit :=
  λ w, match fs w !! p with
       | Some Directory =>
           (w, Raise (Exception ("[Errno 21] Is a directory: '" +:+ str p +:+ "'")))
       | _ =>
           if is_dir (fs w) (parent p) then set_fs (<[p := File []]>) w
           else (w, Raise (Exception
                  ("[Errno 2] No such file or directory: '" +:+ str p +:+ "'")))
       end.

(** One row handed to the [csv] writer of the open file. *)
Definition writerow (p : path) (fields : list string) : M world unit :=
  set_fs (alter (λ n, match n with
                      | File rows => File (rows ++ [fields])
                      | Directory => Directory
                      end) p).

(** [p.relative_to(base)] *)
Definition relative_to (p base : path) : result path :=
  if bool_decide (take (length base) p = base) then Ok (drop (length base) p)
  else Raise (Exception ("'" +:+ str p +:+ "' is not in the subpath of '"
                         +:+ str base +:+ "'")).

Definition clean_cell_value (c : cell) : string :=
  match c with
  | None => ""
  | Some text =>
      let value := Py.strip text in
      if bool_decide (value ≠ "None") then value else ""
  end.

(** The dictionary built from one data row under the headers. *)
Definition row_dict (headers : list string) (values : list cell) : row :=
  foldl (λ (d : row) '(i, value),
           match headers !! i with
           | Some h => if Py.truthy h then <[h := clean_cell_value value]> d
                       else d
           | None => d
           end)
        ∅ (imap (λ i value, (i, value)) values).

(** [any(row_dict.values())] *)
Definition any_value (d : row) : bool :=
  existsb (λ kv, Py.truthy kv.2) (map_to_list d).

(** [wb[sheet_name]] *)
Definition wb_getitem (wb : workbook) (sheet_name : string) : result sheet :=
  match od_get sheet_name wb with
  | Some ws => Ok ws
  | None => Raise (Exception ("'Worksheet " +:+ sheet_name +:+ " does not exist.'"))
  end.

(** [dict_to_list] of [csv.DictWriter] with [extrasaction='ignore'] and the
    default [restval='']. *)
Definition dict_to_list (fieldnames : list string) (r : row) : list string :=
  (λ key, get r key "") <$> fieldnames.

Definition replace_space_apostrophe (topic_name : string) : string :=
  Py.replace "'"%char "" (Py.replace " "%char "_" topic_name).

(** The line feed that starts some console messages. *)
Definition LF : string := String "010"%char "".

(** ** Master index *)

(** The subject lookup: [{s['subject_key']: s['name'] for s in subjects_data
    if 'subject_key' in s and 'name' in s}]. *)
Definition subjects_of (subjects_data : list row) : gmap string string :=
  foldl (λ (subjects : gmap string string) (s : row),
           match s !! "subject_key", s !! "name" with
           | Some subject_key, Some name => <[subject_key := name]> subjects
           | _, _ => subjects
           end)
        ∅ subjects_data.

(** One turn of the loop over [topics_data]. *)
Definition mapping_step (mapping : odict (odict string)) (topic : row)
  : odict (odict string) :=
  match topic !! "subject_key", topic !! "topic_id", topic !! "topic_name" with
  | Some subject_key, Some topic_id, Some topic_name =>
      let mapping :=
        if od_mem subject_key mapping then mapping
        else od_set subject_key [] mapping in
      od_alter (od_set topic_id topic_name) subject_key mapping
  | _, _, _ => mapping
  end.

Definition index_row (subject_key subject_name topic_id topic_name : string)
  : row :=
  list_to_map
    [("subject_key", subject_key);
     ("subject_name", subject_name);
     ("topic_id", topic_id);
     ("topic_name", topic_name);
     ("topic_folder", replace_space_apostrophe topic_name)].

(** [index_data] of [create_master_indices]. *)
Definition index_rows (subjects : gmap string string)
  (mapping : odict (odict string)) : list row :=
  concat
    (map (λ '((subject_key, topics) : string * odict string),
            let subject_name :=
              from_option id subject_key (subjects !! subject_key) in
            map (λ '((topic_id, topic_name) : string * string),
                   index_row subject_key subject_name topic_id topic_name)
                topics)
         mapping).

Definition index_fieldnames : list string :=
  ["subject_key"; "subject_name"; "topic_id"; "topic_name"; "topic_folder"].

(** ** Grouping by topic *)

(** [if topic_id not in by_topic: by_topic[topic_id] = []] and then
    [by_topic[topic_id].append(x)]. *)
Definition add_to_topic (topic_id : string) (x : row)
  (by_topic : odict (list row)) : odict (list row) :=
  let by_topic :=
    if od_mem topic_id by_topic then by_topic
    else od_set topic_id [] by_topic in
  od_alter (λ l, l ++ [x]) topic_id by_topic.

(** One turn of a grouping loop; [mk] is the record appended for the row. *)
Definition group_step (mk : row → row) (by_topic : odict (list row))
  (item : row) : odict (list row) :=
  let topic_id := get item "topic_id" "" in
  if negb (Py.truthy topic_id) then by_topic
  else add_to_topic topic_id (mk item) by_topic.

(** The quiz pass appends the question itself. *)
Definition quiz_by_topic (quiz_data : list row) : odict (list row) :=
  foldl (group_step id) [] quiz_data.

Definition quiz_fieldnames : list string :=
  ["question_id"; "topic_id"; "question_text"; "option_a"; "option_b";
   "option_c"; "option_d"; "correct_answer"; "explanation"; "difficulty";
   "hint"; "xp_reward"].

(** [questions[0].get('topic_name', topic_id) if questions else topic_id] *)
Definition quiz_topic_name (topic_id : string) (questions : list row)
  : string :=
  match questions with
  | q :: _ => get q "topic_name" topic_id
  | [] => topic_id
  end.

Definition study_content_item (item : row) : row :=
  list_to_map
    [("content_id", get item "content_id" "");
     ("content_type", get item "content_type" "text");
     ("title", get item "content_title" "");
     ("content", get item "content_text" "");
     ("url", por (get item "video_url" "") (get item "image_url" ""));
     ("order_index", get item "order_index" "")].

Definition formula_item (formula : row) : row :=
  list_to_map
    [("content_id", get formula "formula_id" "");
     ("content_type", "formula");
     ("title", get formula "formula_label" "");
     ("content", get formula "formula_text" "");
     ("url", "");
     ("order_index", get formula "order_index" "")].

Definition key_term_item (term : row) : row :=
  list_to_map
    [("content_id", get term "term_id" "");
     ("content_type", "key_term");
     ("title", get term "term" "");
     ("content", get term "definition" "");
     ("url", "");
     ("order_index", "")].

(** The three grouping loops of the study-content pass, one after the
    other on the same [by_topic]. *)
Definition study_by_topic (study_content formulas key_terms : list row)
  : odict (list row) :=
  let by_topic := [] in
  let by_topic := foldl (group_step study_content_item) by_topic study_content in
  let by_topic := foldl (group_step formula_item) by_topic formulas in
  let by_topic := foldl (group_step key_term_item) by_topic key_terms in
  by_topic.

Definition study_fieldnames : list string :=
  ["content_id"; "content_type"; "title"; "content"; "url"; "order_index"].

(** The topic name of a content group, before it is made a folder name. *)
Definition study_topic_name (topic_id : string) (content_items : list row)
  : string :=
  let topic_name :=
    Py.title (Py.replace "_"%char " " (Py.replace "-"%char " " topic_id)) in
  match content_items with
  | item :: _ =>
      if has_key item "topic_name" then get item "topic_name" topic_name
      else topic_name
  | [] => topic_name
  end.

Section pipeline.

(** [BASE_DIR], the workbooks as [openpyxl.load_workbook] opens them (or
    fails to), and what [subjects_dir.glob('*.xlsx')] yields. *)
Variable BASE_DIR : path.
Variable load_workbook : path → result workbook.
Variable subject_files : list path.

Definition DATA_DIR : path := BASE_DIR // "public" // "data".
Definition QUESTIONNAIRE_DIR : path := BASE_DIR // "public" // "questionnaire".
Definition STUDYGUIDE_DIR : path := BASE_DIR // "public" // "studyguide".
Definition HANDOUT_DIR : path := BASE_DIR // "public" // "Handout".

Definition read_excel_sheet (file_path : path) (sheet_name : string)
  : M world (list row) :=
  try_except
    (wb ← lift (load_workbook file_path);
     if negb (bool_decide (sheet_name ∈ wb.*1)) then
       print ("  [WARN] Sheet '" +:+ sheet_name +:+ "' not found in "
              +:+ name file_path);;
       ret []
     else
       ws ← lift (wb_getitem wb sheet_name);
       let headers := clean_cell_value <$> hd [] ws in
       let data :=
         foldl (λ data values,
                  let d := row_dict headers values in
                  if any_value d then data ++ [d] else data)
               [] (tl ws) in
       ret data)
    (λ e,
       print ("  [ERROR] Error reading " +:+ name file_path +:+ "/"
              +:+ sheet_name +:+ ": " +:+ exn_str e);;
       ret []).

Definition write_csv (file_path : path) (data : list row)
  (fieldnames : list string) : M world unit :=
  match data with
  | [] => print ("  [WARN] No data to write to " +:+ str file_path)
  | _ =>
      mkdir_parents (parent file_path);;
      try_except
        (open_w file_path;;
         writerow file_path fieldnames;;
         for_each data (λ r, writerow file_path (dict_to_list fieldnames r));;
         rel ← lift (relative_to file_path BASE_DIR);
         print ("  [+] Created: " +:+ str_relative rel))
        (λ e, print ("  [ERROR] Error writing " +:+ str file_path +:+ ": "
                     +:+ exn_str e))
  end.

Definition get_subject_topic_mapping
  : M world (gmap string string * odict (odict string)) :=
  let master_file := DATA_DIR // "StudyHub_Master.xlsx" in
  subjects_data ← read_excel_sheet master_file "Subjects";
  let subjects := subjects_of subjects_data in
  topics_data ← read_excel_sheet master_file "Topics";
  let mapping := foldl mapping_step [] topics_data in
  ret (subjects, mapping).

Definition create_master_indices (subjects : gmap string string)
  (mapping : odict (odict string)) : M world unit :=
  print (LF +:+ "[*] Creating master index files...");;
  let index_data := index_rows subjects mapping in
  write_csv (QUESTIONNAIRE_DIR // "_master_index.csv") index_data index_fieldnames;;
  write_csv (STUDYGUIDE_DIR // "_master_index.csv") index_data index_fieldnames;;
  write_csv (HANDOUT_DIR // "_master_index.csv") index_data index_fieldnames.

Definition quiz_output_path (subject_key topic_id : string)
  (questions : list row) : path :=
  let topic_name := quiz_topic_name topic_id questions in
  let topic_folder := replace_space_apostrophe topic_name in
  QUESTIONNAIRE_DIR // Py.title subject_key // topic_folder // "questions.csv".

Definition convert_quiz_questions : M world unit :=
  print (LF +:+ "[*] Converting Quiz Questions...");;
  for_each subject_files (λ subject_file,
    let subject_key := stem subject_file in
    print (LF +:+ "  Processing " +:+ subject_key +:+ "...");;
    quiz_data ← read_excel_sheet subject_file "Quiz_Questions";
    let by_topic := quiz_by_topic quiz_data in
    for_each by_topic (λ '(topic_id, questions),
      write_csv (quiz_output_path subject_key topic_id questions)
                questions quiz_fieldnames)).

Definition study_output_path (subject_key topic_id : string)
  (content_items : list row) : path :=
  let topic_name := study_topic_name topic_id content_items in
  let topic_folder := replace_space_apostrophe topic_name in
  STUDYGUIDE_DIR // Py.title subject_key // topic_folder // "content.csv".

Definition convert_study_content : M world unit :=
  print (LF +:+ "[*] Converting Study Content...");;
  for_each subject_files (λ subject_file,
    let subject_key := stem subject_file in
    print (LF +:+ "  Processing " +:+ subject_key +:+ "...");;
    study_content ← read_excel_sheet subject_file "Study_Content";
    formulas ← read_excel_sheet subject_file "Formulas";
    key_terms ← read_excel_sheet subject_file "Key_Terms";
    let by_topic := study_by_topic study_content formulas key_terms in
    for_each by_topic (λ '(topic_id, content_items),
      write_csv (study_output_path subject_key topic_id content_items)
                content_items study_fieldnames)).

Definition main : M world unit :=
  print "[*] Starting Excel to CSV Conversion...";;
  print ("[*] Base Directory: " +:+ str BASE_DIR);;
  print (LF +:+ "[*] Reading master data...");;
  '(subjects, mapping) ← get_subject_topic_mapping;
  print ("  Found " +:+ pretty (size subjects) +:+ " subjects, "
         +:+ pretty (sum_list ((λ t, length t.2) <$> mapping)) +:+ " topics");;
  create_master_indices subjects mapping;;
  convert_quiz_questions;;
  convert_study_content;;
  print (LF +:+ "[+] Conversion complete!");;
  print (LF +:+ "[*] Output directories:");;
  print ("  - " +:+ str QUESTIONNAIRE_DIR);;
  print ("  - " +:+ str STUDYGUIDE_DIR);;
  print ("  - " +:+ str HANDOUT_DIR).

End pipeline.
End ConvertToCsv.

(** ** [scripts/validate_structure.py] *)

Module ValidateStructure.
Import PathLib.

Definition REQUIRED_SUBJECTS : list string :=
  ["Physics"; "Chemistry"; "Biology"; "Math"; "English"; "Social"].
Definition REQUIRED_TOPIC_STRUCTURE : list string :=
  ["studyguide"; "questionnaire"; "Handout"].

Record stats_t := Stats {
  files_checked : nat;
  valid_files : nat;
  invalid_files : nat
}.

Record report_t := Report {
  status : string;
  errors : list string;
  warnings : list string;
  stats : stats_t
}.

(** The module-level [report] when the script starts. *)
Definition initial_report : report_t :=
  Report "success" [] [] (Stats 0 0 0).

(** [entry += f" ({path})"] under [if path:]. *)
Definition with_path (entry : string) (path : option string) : string :=
  match path with
  | Some p => if Py.truthy p then entry +:+ " (" +:+ p +:+ ")" else entry
  | None => entry
  end.

(** The assignments of [log_error] on the report. *)
Definition record_error (msg : string) (path : option string)
  (report : report_t) : report_t :=
  let entry := with_path ("[ERROR] " +:+ msg) path in
  let report :=
    Report (status report) (errors report ++ [entry]) (warnings report)
           (stats report) in
  Report "failed" (errors report) (warnings report) (stats report).

(** The assignment of [log_warn] on the report. *)
Definition record_warn (msg : string) (path : option string)
  (report : report_t) : report_t :=
  let entry := with_path ("[WARN] " +:+ msg) path in
  Report (status report) (errors report) (warnings report ++ [entry])
         (stats report).

(** [report["stats"]["files_checked"] += n] *)
Definition add_files_checked (n : nat) (report : report_t) : report_t :=
  let st := stats report in
  Report (status report) (errors report) (warnings report)
         (Stats (files_checked st + n) (valid_files st) (invalid_files st)).

(** [report["stats"]["valid_files"] += n] *)
Definition add_valid_files (n : nat) (report : report_t) : report_t :=
  let st := stats report in
  Report (status report) (errors report) (warnings report)
         (Stats (files_checked st) (valid_files st + n) (invalid_files st)).

(** The state of a run: the global [report] and what was printed on the
    standard output (each time, the report handed to [json.dumps]). *)
Record state := State {
  report : report_t;
  stdout : list report_t
}.

Definition on_report (f : report_t → report_t) : M state unit :=
  modify (λ s, State (f (report s)) (stdout s)).

Definition log_error (msg : string) (path : option string) : M state unit :=
  on_report (record_error msg path).

Definition log_warn (msg : string) (path : option string) : M state unit :=
  on_report (record_warn msg path).

(** [print(json.dumps(report, indent=2))] *)
Definition print_report : M state unit :=
  modify (λ s, State (report s) (stdout s ++ [report s])).

(** The directory tree as the script queries it; every query may raise
    (an [OSError] of the operating system, say). *)
Record file_system := FileSystem {
  path_exists : path → result bool;
  path_is_dir : path → result bool;
  path_iterdir : path → result (list path);
  path_glob : path → string → result (list path)
}.

(** [[x for x in xs if keep(x)]] *)
Fixpoint filter_m {S A} (keep : A → M S bool) (xs : list A) : M S (list A) :=
  match xs with
  | [] => ret []
  | x :: xs' =>
      b ← keep x;
      rest ← filter_m keep xs';
      ret (if b : bool then x :: rest else rest)
  end.

(** A loop that carries a local variable. *)
Fixpoint fold_each {S A B} (xs : list A) (acc : B) (body : B → A → M S B)
  : M S B :=
  match xs with
  | [] => ret acc
  | x :: xs' => acc' ← body acc x; fold_each xs' acc' body
  end.

Definition allowed_suffixes : list string :=
  [".csv"; ".pdf"; ".docx"; ".doc"; ".jpg"; ".png"].

(** One turn of the loop over the files of [Pages]; [valid_count] is the
    local counter of the loop. *)
Definition classify_page (valid_count : nat) (f : path) : M state nat :=
  if bool_decide (name f = "index.csv") then ret valid_count
  else if bool_decide (suffix f ∉ allowed_suffixes) then
    log_warn ("Stray or unknown file type: " +:+ name f) (Some (str f));;
    ret valid_count
  else ret (valid_count + 1).

Section walk.

Variable os : file_system.
Variable PUBLIC_DIR : path.

Definition validate_studyguide (path : path) : M state unit :=
  let pages_dir := path // "Pages" in
  pages_exists ← lift (path_exists os pages_dir);
  if negb pages_exists then
    log_error "Missing 'Pages' directory in studyguide" (Some (str path))
  else
    let index_file := path // "index.csv" in
    index_exists ← lift (path_exists os index_file);
    (if negb index_exists then
       fallback_exists ← lift (path_exists os (pages_dir // "index.csv"));
       if (fallback_exists : bool) then ret tt
       else log_error "Missing 'index.csv' map for studyguide pages"
                      (Some (str path))
     else ret tt : M state unit);;
    files ← lift (path_glob os pages_dir "*");
    on_report (add_files_checked (length files));;
    valid_count ← fold_each files 0 classify_page;
    on_report (add_valid_files valid_count).

Definition validate_questionnaire (path : path) : M state unit :=
  let quiz_dir := path // "Quiz" in
  quiz_exists ← lift (path_exists os quiz_dir);
  if negb quiz_exists then
    log_error "Missing 'Quiz' directory" (Some (str path))
  else
    csvs ← lift (path_glob os quiz_dir "*.csv");
    match csvs with
    | [] => log_warn "No quiz CSV files found" (Some (str quiz_dir))
    | _ => ret tt
    end.

Definition validate_handout (path : path) : M state unit :=
  let pages_dir := path // "Pages" in
  pages_exists ← lift (path_exists os pages_dir);
  if negb pages_exists then ret tt else ret tt.

Definition validate_topic (topic_path : path) : M state unit :=
  for_each REQUIRED_TOPIC_STRUCTURE (λ sub,
    let sub_path := topic_path // sub in
    sub_exists ← lift (path_exists os sub_path);
    if negb sub_exists then
      log_error ("Missing required subfolder '" +:+ sub +:+ "' in topic")
                (Some (str topic_path))
    else if bool_decide (sub = "studyguide") then validate_studyguide sub_path
    else if bool_decide (sub = "questionnaire") then
      validate_questionnaire sub_path
    else if bool_decide (sub = "Handout") then validate_handout sub_path
    else ret tt).

Definition validate_structure : M state unit :=
  for_each REQUIRED_SUBJECTS (λ subject,
    let subject_path := PUBLIC_DIR // subject in
    subject_exists ← lift (path_exists os subject_path);
    if negb subject_exists then
      log_warn ("Missing subject folder: " +:+ subject) None
    else
      entries ← lift (path_iterdir os subject_path);
      topics ← filter_m (λ t, lift (path_is_dir os t)) entries;
      match topics with
      | [] => log_warn ("No topics found for subject " +:+ subject)
                       (Some (str subject_path))
      | _ => for_each topics validate_topic
      end).

(** The script run as a program. *)
Definition main : M state unit :=
  try_except validate_structure
    (λ e, log_error ("Validation script crashed: " +:+ exn_str e) None);;
  print_report.

(** The state a run ends in, from the state the script starts in. *)
Definition run : state * result unit := main (State initial_report []).

End walk.
(** A concrete directory tree: the paths that exist, each marked as a
    directory ([true]) or a regular file ([false]). *)
Abbreviation tree := (list (path * bool)).

(** [fnmatch] for the two patterns of the script, [*] and [*.csv]: a
    leading star and then literal text. *)
Definition fnmatch (pattern name : string) : bool :=
  match pattern with
  | String c rest =>
      if decide (c = "*"%char) then Py.endswith name rest
      else bool_decide (pattern = name)
  | EmptyString => bool_decide (name = "")
  end.

Definition children (t : tree) (p : path) : list path :=
  filter (λ q, q ≠ [] ∧ parent q = p) t.*1.

(** The queries of the script answered on a tree; listing what is not a
    directory raises. *)
Definition tree_fs (t : tree) : file_system :=
  {| path_exists p := Ok (bool_decide (p ∈ t.*1));
     path_is_dir p := Ok (bool_decide ((p, true) ∈ t));
     path_iterdir p :=
       if bool_decide ((p, true) ∈ t) then Ok (children t p)
       else Raise (Exception ("[Errno 20] Not a directory: '" +:+ str p +:+ "'"));
     path_glob p pattern :=
       Ok (if bool_decide ((p, true) ∈ t)
           then filter (λ q, fnmatch pattern (name q) = true) (children t p)
           else []) |}.

End ValidateStructure.

(** ** Notions used to state the properties *)

(** The rows of a sheet that carry a given topic id, in sheet order. *)
Definition rows_of_topic (topic_id : string) (rows : list row) : list row :=
  filter (λ r, get r "topic_id" "" = topic_id) rows.

(** A list as the value of a dictionary entry that exists only when the
    list has an element. *)
Definition entry_of {A} (l : list A) : option (list A) :=
  match l with [] => None | _ => Some l end.

(** The order the specification gives the content of a topic: the mapped
    Study_Content rows, then the mapped Formulas rows, then the mapped
    Key_Terms rows, each in sheet order. *)
Definition concatenation_order (study_content formulas key_terms : list row)
  (topic_id : string) : list row :=
  (ConvertToCsv.study_content_item <$> rows_of_topic topic_id study_content)
  ++ (ConvertToCsv.formula_item <$> rows_of_topic topic_id formulas)
  ++ (ConvertToCsv.key_term_item <$> rows_of_topic topic_id key_terms).

(** The topic name the specification derives from a topic id alone. *)
Definition topic_name_of_id (topic_id : string) : string :=
  Py.title (Py.replace "_"%char " " (Py.replace "-"%char " " topic_id)).

(** A Topics row that has the three fields the mapping needs. *)
Definition complete_topic (topic : row) : Prop :=
  is_Some (topic !! "subject_key") ∧ is_Some (topic !! "topic_id")
  ∧ is_Some (topic !! "topic_name").

#[global] Instance complete_topic_dec topic : Decision (complete_topic topic).
Proof. unfold complete_topic. apply _. Defined.

(** A Topics row read as (subject_key, topic_id, topic_name). *)
Definition topic_row_is (topic : row) (subject_key topic_id topic_name : string)
  : Prop :=
  topic !! "subject_key" = Some subject_key
  ∧ topic !! "topic_id" = Some topic_id
  ∧ topic !! "topic_name" = Some topic_name.

(** The rows [read_excel_sheet] returns for a sheet of a workbook file. *)
Definition sheet_rows (load_workbook : PathLib.path → result ConvertToCsv.workbook)
  (file_path : PathLib.path) (sheet_name : string) : list row :=
  match (ConvertToCsv.read_excel_sheet load_workbook file_path sheet_name
           (ConvertToCsv.World [] ∅)).2 with
  | Ok data => data
  | Raise _ => []
  end.

(** The rows of a CSV file written under [fieldnames]: the header, then one
    row of fields per record. *)
Definition csv_table (fieldnames : list string) (data : list row)
  : list (list string) :=
  fieldnames :: (ConvertToCsv.dict_to_list fieldnames <$> data).

(** The file system after a successful [write_csv] of a non-empty [data]:
    the directories above the file exist and the file holds the table,
    unless a directory is in its place. *)
Definition written (fieldnames : list string) (data : list row)
  (p : PathLib.path) (m : gmap PathLib.path ConvertToCsv.node)
  : gmap PathLib.path ConvertToCsv.node :=
  let m1 :=
    ConvertToCsv.make_directories
      (ConvertToCsv.prefixes (PathLib.parent p)) m in
  match m1 !! p with
  | Some ConvertToCsv.Directory => m1
  | _ => <[p := ConvertToCsv.File (csv_table fieldnames data)]> m1
  end.

(** [holds I m Q]: run from a state where [I] holds, [m] ends in a state
    where [I] holds, whether it returns or raises, and a value it returns
    satisfies [Q]. *)
Definition holds {S A} (I : S → Prop) (m : M S A) (Q : A → Prop) : Prop :=
  ∀ s, I s → I (m s).1 ∧ ∀ a, (m s).2 = Ok a → Q a.

(** A file of the quiz pass: the table of one topic group of one subject
    workbook, at the path of that group. *)
Definition quiz_file (BASE_DIR : PathLib.path)
  (load_workbook : PathLib.path → result ConvertToCsv.workbook)
  (subject_files : list PathLib.path)
  (q : PathLib.path) (content : list (list string)) : Prop :=
  ∃ subject_file topic_id questions,
    subject_file ∈ subject_files
    ∧ (topic_id, questions)
      ∈ ConvertToCsv.quiz_by_topic
          (sheet_rows load_workbook subject_file "Quiz_Questions")
    ∧ q = ConvertToCsv.quiz_output_path BASE_DIR (PathLib.stem subject_file)
            topic_id questions
    ∧ content = csv_table ConvertToCsv.quiz_fieldnames questions.

(** Every file of [w] was in [w0] or is a file of the quiz pass. *)
Definition quiz_written (BASE_DIR : PathLib.path)
  (load_workbook : PathLib.path → result ConvertToCsv.workbook)
  (subject_files : list PathLib.path) (w0 w : ConvertToCsv.world) : Prop :=
  ∀ q content,
    ConvertToCsv.fs w !! q = Some (ConvertToCsv.File content) →
    ConvertToCsv.fs w0 !! q = Some (ConvertToCsv.File content)
    ∨ quiz_file BASE_DIR load_workbook subject_files q content.

(** ** A small content store, for examples *)

Module Example.
Import ConvertToCsv PathLib.

Definition BASE_DIR : path := ["app"].

Definition physics_xlsx : path :=
  ["app"; "public"; "data"; "subjects"; "physics.xlsx"].

(** A subject workbook with one quiz question; the sheet has two columns
    that are no quiz fields, [topic_name] and [author]. *)
Definition physics : workbook :=
  [("Quiz_Questions",
    [[Some "question_id"; Some "topic_id"; Some "question_text";
      Some "topic_name"; Some "author"];
     [Some "q1"; Some "phy-t1"; Some " What is force? ";
      Some "Newton's Laws"; Some "someone"]])].

Definition load_workbook (p : path) : result workbook :=
  if decide (p = physics_xlsx) then Ok physics
  else Raise (Exception "File is not a zip file").

Definition questions_csv : path :=
  ["app"; "public"; "questionnaire"; "Physics"; "Newtons_Laws";
   "questions.csv"].

Definition empty_world : world := World [] ∅.

(** A content tree with one topic of one subject: a study guide whose
    [Pages] hold the index, a page and a stray text file, a quiz, and an
    empty handout folder. *)
Definition PUBLIC_DIR : path := ["app"; "public"].

Definition studyguide : path := ["app"; "public"; "Physics"; "t1"; "studyguide"].

Definition store : ValidateStructure.tree :=
  [(["app"; "public"; "Physics"], true);
   (["app"; "public"; "Physics"; "t1"], true);
   (studyguide, true);
   (studyguide ++ ["Pages"], true);
   (studyguide ++ ["Pages"; "index.csv"], false);
   (studyguide ++ ["Pages"; "Page1.pdf"], false);
   (studyguide ++ ["Pages"; "notes.txt"], false);
   (["app"; "public"; "Physics"; "t1"; "questionnaire"], true);
   (["app"; "public"; "Physics"; "t1"; "questionnaire"; "Quiz"], true);
   (["app"; "public"; "Physics"; "t1"; "questionnaire"; "Quiz"; "q.csv"], false);
   (["app"; "public"; "Physics"; "t1"; "Handout"], true)].

(** The same study guide with no index anywhere. *)
Definition store_without_index : ValidateStructure.tree :=
  [(["app"; "public"; "Physics"], true);
   (["app"; "public"; "Physics"; "t1"], true);
   (studyguide, true);
   (studyguide ++ ["Pages"], true);
   (studyguide ++ ["Pages"; "Page1.pdf"], false)].

(** A tree in which the folder of a subject is a regular file. *)
Definition store_with_file_subject : ValidateStructure.tree :=
  store ++ [(["app"; "public"; "Math"], false)].

End Example.

(** ** Notions for the validator *)

(** The status of a report agrees with its errors. *)
Definition consistent (r : ValidateStructure.report_t) : Prop :=
  ValidateStructure.status r = "failed" ↔ ValidateStructure.errors r ≠ [].

(** The warning [validate_studyguide] logs for a file of [Pages]. *)
Definition stray_warning (f : PathLib.path) : string :=
  "[WARN] Stray or unknown file type: " +:+ PathLib.name f
  +:+ " (" +:+ PathLib.str f +:+ ")".

(** The error entries of [validate_studyguide]. *)
Definition missing_pages_error (path : PathLib.path) : string :=
  "[ERROR] Missing 'Pages' directory in studyguide (" +:+ PathLib.str path
  +:+ ")".
Definition missing_index_error (path : PathLib.path) : string :=
  "[ERROR] Missing 'index.csv' map for studyguide pages ("
  +:+ PathLib.str path +:+ ")".

(** The statistics of a report are sound: no file is counted as invalid
    and no more files are counted as valid than were checked. *)
Definition stats_ok (r : ValidateStructure.report_t) : Prop :=
  ValidateStructure.invalid_files (ValidateStructure.stats r) = 0
  ∧ ValidateStructure.valid_files (ValidateStructure.stats r)
    ≤ ValidateStructure.files_checked (ValidateStructure.stats r).

(** [r] continues [r0]: it keeps the entries of [r0] at the front of its
    own, its counters are not lower, and it is failed when [r0] is. *)
Definition continues (r0 r : ValidateStructure.report_t) : Prop :=
  ValidateStructure.errors r0 `prefix_of` ValidateStructure.errors r
  ∧ ValidateStructure.warnings r0 `prefix_of` ValidateStructure.warnings r
  ∧ ValidateStructure.files_checked (ValidateStructure.stats r0)
    ≤ ValidateStructure.files_checked (ValidateStructure.stats r)
  ∧ ValidateStructure.valid_files (ValidateStructure.stats r0)
    ≤ ValidateStructure.valid_files (ValidateStructure.stats r)
  ∧ (ValidateStructure.status r0 = "failed"
     → ValidateStructure.status r = "failed").

(** Every file of [w] was in [w0] or is one that [expected] describes. *)
Definition files_from
  (expected : PathLib.path → list (list string) → Prop)
  (w0 w : ConvertToCsv.world) : Prop :=
  ∀ q content,
    ConvertToCsv.fs w !! q = Some (ConvertToCsv.File content) →
    ConvertToCsv.fs w0 !! q = Some (ConvertToCsv.File content)
    ∨ expected q content.

(** A master index file: the table of the index rows at one of the three
    output roots. *)
Definition master_index_file (BASE_DIR : PathLib.path)
  (index_data : list row)
  (q : PathLib.path) (content : list (list string)) : Prop :=
  q ∈ [ConvertToCsv.QUESTIONNAIRE_DIR BASE_DIR // "_master_index.csv";
       ConvertToCsv.STUDYGUIDE_DIR BASE_DIR // "_master_index.csv";
       ConvertToCsv.HANDOUT_DIR BASE_DIR // "_master_index.csv"]
  ∧ index_data ≠ []
  ∧ content = csv_table ConvertToCsv.index_fieldnames index_data.

(** A file of the study-content pass: the table of one topic group of one
    subject workbook, at the path of that group. *)
Definition content_file (BASE_DIR : PathLib.path)
  (load_workbook : PathLib.path → result ConvertToCsv.workbook)
  (subject_files : list PathLib.path)
  (q : PathLib.path) (content : list (list string)) : Prop :=
  ∃ subject_file topic_id content_items,
    subject_file ∈ subject_files
    ∧ (topic_id, content_items)
      ∈ ConvertToCsv.study_by_topic
          (sheet_rows load_workbook subject_file "Study_Content")
          (sheet_rows load_workbook subject_file "Formulas")
          (sheet_rows load_workbook subject_file "Key_Terms")
    ∧ q = ConvertToCsv.study_output_path BASE_DIR (PathLib.stem subject_file)
            topic_id content_items
    ∧ content = csv_table ConvertToCsv.study_fieldnames content_items.

(** A file of the whole conversion: a master index, a quiz file or a
    content file of the workbooks at hand. *)
Definition pipeline_file (BASE_DIR : PathLib.path)
  (load_workbook : PathLib.path → result ConvertToCsv.workbook)
  (subject_files : list PathLib.path)
  (q : PathLib.path) (content : list (list string)) : Prop :=
  let master_file :=
    ConvertToCsv.DATA_DIR BASE_DIR // "StudyHub_Master.xlsx" in
  master_index_file BASE_DIR
    (ConvertToCsv.index_rows
       (ConvertToCsv.subjects_of
          (sheet_rows load_workbook master_file "Subjects"))
       (foldl ConvertToCsv.mapping_step []
              (sheet_rows load_workbook master_file "Topics")))
    q content
  ∨ quiz_file BASE_DIR load_workbook subject_files q content
  ∨ content_file BASE_DIR load_workbook subject_files q content.

(** ** A second small example: a master workbook and study content *)

Module ExampleStore.
Import ConvertToCsv PathLib.

Definition master_xlsx : path :=
  ["app"; "public"; "data"; "StudyHub_Master.xlsx"].

Definition master : workbook :=
  [("Subjects",
    [[Some "subject_key"; Some "name"];
     [Some "physics"; Some "Physics"]]);
   ("Topics",
    [[Some "subject_key"; Some "topic_id"; Some "topic_name"];
     [Some "physics"; Some "phy-t1"; Some "Newton's Laws"]])].

(** A subject workbook with one study-content row, one formula, and no
    Key_Terms sheet. *)
Definition physics : workbook :=
  [("Study_Content",
    [[Some "content_id"; Some "topic_id"; Some "content_title";
      Some "content_text"];
     [Some "c1"; Some "phy-t1"; Some "Force"; Some "A push or a pull"];
     [None; None; None; None]]);
   ("Formulas",
    [[Some "formula_id"; Some "topic_id"; Some "formula_text"];
     [Some "f1"; Some "phy-t1"; Some "F = m a"]])].

Definition load_workbook (p : path) : result workbook :=
  if decide (p = master_xlsx) then Ok master
  else if decide (p = Example.physics_xlsx) then Ok physics
  else Raise (Exception "File is not a zip file").

Definition content_csv : path :=
  ["app"; "public"; "studyguide"; "Physics"; "Phy_T1"; "content.csv"].

Definition master_index_csv : path :=
  ["app"; "public"; "Handout"; "_master_index.csv"].

End ExampleStore.

(** Text that begins, or ends, with white space. *)
Definition starts_with_space (s : string) : bool :=
  match s with
  | String c _ => Py.isspace c
  | EmptyString => false
  end.
Definition ends_with_space (s : string) : bool :=
  starts_with_space (String.rev s).

(** [c in s] for a character [c]. *)
Fixpoint occurs (c : ascii) (s : string) : bool :=
  match s with
  | EmptyString => false
  | String d s' => bool_decide (d = c) || occurs c s'
  end.

(** The distinct values of a list, in the order of their first
    occurrence. *)
Definition first_occurrences (l : list string) : list string :=
  foldl (λ acc x, if decide (x ∈ acc) then acc else acc ++ [x]) [] l.

(** The pair that identifies a row of the master index. *)
Definition index_key (r : row) : option string * option string :=
  (r !! "subject_key", r !! "topic_id").

(** [mapping[subject_key][topic_id]], when both keys are there. *)
Definition topic_name_in (mapping : odict (odict string))
  (subject_key topic_id : string) : option string :=
  match od_get subject_key mapping with
  | Some topics => od_get topic_id topics
  | None => None
  end.

(** The keys of a mapping are distinct, and so are those of every
    dictionary in it. *)
Definition distinct_keys (mapping : odict (odict string)) : Prop :=
  NoDup mapping.*1
  ∧ ∀ subject_key topics, (subject_key, topics) ∈ mapping → NoDup topics.*1.

(** * Properties *)

(** ** Invariants of computations *)

Section holds.
Context {S : Type} (I : S → Prop).

Lemma holds_ret {A} (a : A) (Q : A → Prop) : Q a → holds I (ret a) Q.
Proof. intros Ha s Hs. split; [done|]. intros a' [= <-]. done. Qed.

Lemma holds_lift {A} (r : result A) : holds I (lift r) (λ a, r = Ok a).
Proof. intros s Hs. split; [done|]. by intros a. Qed.

Lemma holds_modify (f : S → S) :
  (∀ s, I s → I (f s)) → holds I (modify f) (λ _, True).
Proof. intros Hf s Hs. split; [by apply Hf | done]. Qed.

Lemma holds_bind {A B} (m : M S A) (k : A → M S B) (Q : A → Prop)
  (R : B → Prop) :
  holds I m Q → (∀ a, Q a → holds I (k a) R) → holds I (bind m k) R.
Proof.
  intros Hm Hk s Hs. unfold bind. destruct (Hm s Hs) as [Hs' Ha].
  destruct (m s) as [s' [a|e]]; simpl in *.
  - by apply (Hk a (Ha a eq_refl) s').
  - done.
Qed.

Lemma holds_weaken {A} (m : M S A) (Q R : A → Prop) :
  holds I m Q → (∀ a, Q a → R a) → holds I m R.
Proof.
  intros Hm HQR s Hs. destruct (Hm s Hs) as [Hs' Ha].
  split; [done|]. intros a Hr. by apply HQR, Ha.
Qed.

Lemma holds_try_except {A} (body : M S A) (handler : exn → M S A)
  (Q : A → Prop) :
  holds I body Q → (∀ e, holds I (handler e) Q) →
  holds I (try_except body handler) Q.
Proof.
  intros Hb Hh s Hs. unfold try_except. destruct (Hb s Hs) as [Hs' Ha].
  destruct (body s) as [s' [a|e]]; simpl in *.
  - split; [done|]. intros a' [= <-]. by apply Ha.
  - by apply Hh.
Qed.

Lemma holds_for_each {A} (xs : list A) (body : A → M S unit) :
  (∀ x, x ∈ xs → holds I (body x) (λ _, True)) →
  holds I (for_each xs body) (λ _, True).
Proof.
  induction xs as [|x xs IH]; intros Hbody; simpl.
  - by apply holds_ret.
  - eapply holds_bind.
    + apply Hbody. by left.
    + intros _ _. apply IH. intros x' Hx'. apply Hbody. by right.
Qed.

End holds.

(** ** Insertion-ordered dictionaries *)

Section odict_facts.
Context {V : Type}.
Implicit Types (d : odict V) (k : string) (v : V).

Lemma od_get_set d k k' v :
  od_get k' (od_set k v d) = if decide (k = k') then Some v else od_get k' d.
Proof.
  induction d as [|[k0 v0] d IH]; simpl.
  - repeat case_decide; congruence.
  - destruct (decide (k0 = k)) as [->|Hne]; simpl.
    + repeat case_decide; congruence.
    + rewrite IH. repeat case_decide; congruence.
Qed.

Lemma od_get_alter (f : V → V) d k k' :
  od_get k' (od_alter f k d)
  = if decide (k = k') then f <$> od_get k' d else od_get k' d.
Proof.
  induction d as [|[k0 v0] d IH]; simpl.
  - by case_decide.
  - destruct (decide (k0 = k)) as [->|Hne]; simpl.
    + repeat case_decide; simpl; congruence.
    + rewrite IH. repeat case_decide; simpl; congruence.
Qed.

Lemma od_mem_true d k : od_mem k d = true ↔ is_Some (od_get k d).
Proof. unfold od_mem. by rewrite bool_decide_eq_true. Qed.

Lemma od_get_Some_elem d k v : od_get k d = Some v → (k, v) ∈ d.
Proof.
  induction d as [|[k0 v0] d IH]; simpl; [done|].
  case_decide; intros; simplify_eq; [left | right; auto].
Qed.

Lemma od_get_None d k : od_get k d = None ↔ k ∉ d.*1.
Proof.
  induction d as [|[k0 v0] d IH]; simpl.
  - split; [intros _; apply not_elem_of_nil | done].
  - rewrite not_elem_of_cons. case_decide; subst.
    + split; [done | by intros [? _]].
    + rewrite IH. split; [by split | by intros [_ ?]].
Qed.

Lemma od_elem_get d k v : NoDup d.*1 → (k, v) ∈ d → od_get k d = Some v.
Proof.
  induction d as [|[k0 v0] d IH]; simpl.
  - intros _ ?%elem_of_nil. done.
  - intros [Hk0 Hd]%NoDup_cons [Heq|Hin]%elem_of_cons.
    + simplify_eq. by rewrite decide_True.
    + case_decide; subst; [|by auto].
      destruct Hk0. apply (list_elem_of_fmap_2 fst) in Hin. done.
Qed.

Lemma od_set_keys d k v :
  (od_set k v d).*1 = if od_mem k d then d.*1 else d.*1 ++ [k].
Proof.
  induction d as [|[k0 v0] d IH]; [done|].
  unfold od_mem in *. cbn [od_set od_get].
  destruct (decide (k0 = k)) as [->|Hne]; cbn [fmap list_fmap fst].
  - by rewrite bool_decide_eq_true_2 by by eexists.
  - rewrite IH. by destruct (bool_decide (is_Some (od_get k d))).
Qed.

Lemma od_alter_keys (f : V → V) d k : (od_alter f k d).*1 = d.*1.
Proof.
  induction d as [|[k0 v0] d IH]; [done|].
  cbn [od_alter]. case_decide; [done|].
  rewrite !fmap_cons. by rewrite IH.
Qed.

Lemma od_set_elem d k v x :
  x ∈ od_set k v d → x = (k, v) ∨ x ∈ d.
Proof.
  induction d as [|[k0 v0] d IH]; simpl.
  - intros ->%list_elem_of_singleton. by left.
  - case_decide; subst.
    + intros [->|?]%elem_of_cons; [by left | right; by right].
    + intros [->|?]%elem_of_cons; [right; by left|].
      destruct IH as [?|?]; [done | by left | right; by right].
Qed.

Lemma od_alter_elem (f : V → V) d k x :
  x ∈ od_alter f k d → x ∈ d ∨ ∃ v0, (k, v0) ∈ d ∧ x = (k, f v0).
Proof.
  induction d as [|[k0 v0] d IH]; simpl; [by left|].
  case_decide; subst.
  - intros [->|?]%elem_of_cons.
    + right. exists v0. split; [by left | done].
    + left. by right.
  - intros [->|?]%elem_of_cons; [left; by left|].
    destruct IH as [?|(v1 & ? & ->)]; [done | left; by right |].
    right. exists v1. split; [by right | done].
Qed.

End odict_facts.

(** ** Grouping by topic *)

Section grouping.
Import ConvertToCsv.
Implicit Types (d : odict (list row)) (rows : list row) (mk : row → row).

Lemma truthy_false s : Py.truthy s = false ↔ s = "".
Proof. by destruct s. Qed.

Lemma od_get_add_to_topic d t k (x : row) :
  od_get t (add_to_topic k x d)
  = if decide (k = t) then Some (from_option id [] (od_get k d) ++ [x])
    else od_get t d.
Proof.
  unfold add_to_topic. destruct (od_mem k d) eqn:Hmem.
  - apply od_mem_true in Hmem as [l Hl]. rewrite od_get_alter.
    case_decide; subst; [|done]. by rewrite Hl.
  - assert (od_get k d = None) as Hnone.
    { destruct (od_get k d) eqn:Hk; [|done].
      assert (od_mem k d = true) by (apply od_mem_true; by rewrite Hk).
      congruence. }
    rewrite od_get_alter, od_get_set.
    case_decide; subst; [|done]. by rewrite Hnone.
Qed.

Lemma add_to_topic_keys d k (x : row) :
  (add_to_topic k x d).*1 = if od_mem k d then d.*1 else d.*1 ++ [k].
Proof.
  unfold add_to_topic. rewrite od_alter_keys.
  destruct (od_mem k d) eqn:Hmem; [done|]. by rewrite od_set_keys, Hmem.
Qed.

(** What a grouping loop leaves under a topic id. *)
Lemma od_get_group mk rows d t :
  od_get t (foldl (group_step mk) d rows)
  = if decide (t = "") then od_get t d
    else match mk <$> rows_of_topic t rows with
         | [] => od_get t d
         | new => Some (from_option id [] (od_get t d) ++ new)
         end.
Proof.
  revert d. induction rows as [|r rows IH]; intros d; simpl.
  { by case_decide. }
  rewrite IH. clear IH. unfold rows_of_topic.
  rewrite filter_cons. unfold group_step.
  destruct (Py.truthy (get r "topic_id" "")) eqn:Htid; simpl.
  - rewrite !od_get_add_to_topic.
    assert (get r "topic_id" "" ≠ "") as Hne.
    { intros Heq. rewrite Heq in Htid. done. }
    destruct (decide (t = "")) as [->|Ht].
    { by rewrite decide_False. }
    destruct (decide (get r "topic_id" "" = t)) as [Heq|Hneq]; [|done].
    rewrite fmap_cons. rewrite Heq. simpl.
    destruct (mk <$> filter _ rows); simpl; [done|].
    by rewrite <- app_assoc.
  - apply truthy_false in Htid.
    destruct (decide (t = "")) as [->|Ht]; [done|].
    rewrite decide_False by congruence. done.
Qed.

Lemma group_keys_NoDup mk rows d :
  NoDup d.*1 → NoDup (foldl (group_step mk) d rows).*1.
Proof.
  revert d. induction rows as [|r rows IH]; intros d Hd; simpl; [done|].
  apply IH. unfold group_step. destruct (Py.truthy _); simpl; [|done].
  rewrite add_to_topic_keys. destruct (od_mem _ d) eqn:Hmem; [done|].
  apply NoDup_app. split_and!; [done | | apply NoDup_singleton].
  intros k Hk ->%list_elem_of_singleton.
  apply od_get_None in Hk; [done|].
  destruct (od_get _ d) eqn:Hget; [|done].
  assert (od_mem (get r "topic_id" "") d = true)
    by (apply od_mem_true; by rewrite Hget).
  congruence.
Qed.

Lemma group_keys_nonempty mk rows d :
  "" ∉ d.*1 → "" ∉ (foldl (group_step mk) d rows).*1.
Proof.
  intros Hd. apply od_get_None. rewrite od_get_group.
  rewrite decide_True by done. by apply od_get_None.
Qed.

End grouping.

(** ** The study-content pass *)

Section study_content.
Import ConvertToCsv.

Lemma study_by_topic_get study_content formulas key_terms t :
  od_get t (study_by_topic study_content formulas key_terms)
  = if decide (t = "") then None
    else entry_of (concatenation_order study_content formulas key_terms t).
Proof.
  unfold study_by_topic, concatenation_order. rewrite !od_get_group.
  case_decide; [done|]. simpl.
  destruct (study_content_item <$> _), (formula_item <$> _),
    (key_term_item <$> _); simpl; rewrite ?app_nil_r; try done.
  by rewrite <- app_assoc.
Qed.

Lemma study_by_topic_NoDup study_content formulas key_terms :
  NoDup (study_by_topic study_content formulas key_terms).*1.
Proof. unfold study_by_topic. do 3 apply group_keys_NoDup. constructor. Qed.

Lemma study_by_topic_elem study_content formulas key_terms t items :
  (t, items) ∈ study_by_topic study_content formulas key_terms →
  t ≠ "" ∧ items ≠ []
  ∧ items = concatenation_order study_content formulas key_terms t.
Proof.
  intros Hin. apply od_elem_get in Hin; [|apply study_by_topic_NoDup].
  rewrite study_by_topic_get in Hin. case_decide; [done|].
  destruct (concatenation_order _ _ _ t) eqn:Hc; simpl in Hin; [done|].
  by simplify_eq.
Qed.


End study_content.

Section study_topic_folder.
Import ConvertToCsv.

Lemma study_content_item_dom item :
  dom (study_content_item item) = list_to_set study_fieldnames.
Proof. unfold study_content_item. by rewrite dom_list_to_map_L. Qed.

Lemma formula_item_dom formula :
  dom (formula_item formula) = list_to_set study_fieldnames.
Proof. unfold formula_item. by rewrite dom_list_to_map_L. Qed.

Lemma key_term_item_dom term :
  dom (key_term_item term) = list_to_set study_fieldnames.
Proof. unfold key_term_item. by rewrite dom_list_to_map_L. Qed.

Lemma concatenation_order_dom study_content formulas key_terms t :
  Forall (λ item : row, dom item = list_to_set study_fieldnames)
         (concatenation_order study_content formulas key_terms t).
Proof.
  unfold concatenation_order. rewrite !Forall_app, !Forall_fmap.
  split_and!; apply Forall_forall; intros r _; simpl;
    [apply study_content_item_dom | apply formula_item_dom
    | apply key_term_item_dom].
Qed.

Lemma six_keys_no_topic_name (item : row) :
  dom item = list_to_set study_fieldnames → has_key item "topic_name" = false.
Proof.
  intros Hdom. unfold has_key. apply bool_decide_eq_false.
  rewrite <- elem_of_dom, Hdom. unfold study_fieldnames.
  rewrite !list_to_set_cons, !elem_of_union, !elem_of_singleton.
  rewrite list_to_set_nil, elem_of_empty. intros H.
  repeat (destruct H as [H|H]; [discriminate|]). done.
Qed.

(** C10: in the study-content pass every item of every group has exactly
    the six keys content_id, content_type, title, content, url and
    order_index, so no item carries a topic_name and the folder of a group
    is always the one derived from its topic id: hyphens and underscores
    made spaces, title-cased, then spaces made underscores and apostrophes
    removed. *)
Theorem study_folder_from_topic_id (BASE_DIR : PathLib.path)
  (subject_key : string) (study_content formulas key_terms : list row) :
  Forall (λ '(topic_id, content_items),
            Forall (λ item : row,
                      dom item = list_to_set study_fieldnames
                      ∧ has_key item "topic_name" = false) content_items
            ∧ study_topic_name topic_id content_items
              = topic_name_of_id topic_id
            ∧ study_output_path BASE_DIR subject_key topic_id content_items
              = STUDYGUIDE_DIR BASE_DIR // Py.title subject_key
                // replace_space_apostrophe (topic_name_of_id topic_id)
                // "content.csv")
         (study_by_topic study_content formulas key_terms).
Proof.
  apply Forall_forall. intros [t items] Hin.
  apply study_by_topic_elem in Hin as (_ & _ & Hitems).
  pose proof (concatenation_order_dom study_content formulas key_terms t)
    as Hdom. rewrite <- Hitems in Hdom.
  assert (study_topic_name t items = topic_name_of_id t) as Hname.
  { unfold study_topic_name, topic_name_of_id.
    destruct items as [|item items']; [done|].
    apply Forall_cons in Hdom as [Hitem _].
    by rewrite (six_keys_no_topic_name _ Hitem). }
  split_and!.
  - eapply Forall_impl; [exact Hdom|]. intros item Hitem. simpl.
    split; [done | by apply six_keys_no_topic_name].
  - done.
  - unfold study_output_path. by rewrite Hname.
Qed.

End study_topic_folder.

(** ** The master index *)

Section master_index.
Import ConvertToCsv.









(** The master index on a small master workbook: a topic of a subject the
    Subjects sheet does not name, and a row without topic id. *)
Example master_index_example :
  let subjects_data : list row :=
    [list_to_map [("subject_key", "physics"); ("name", "Physics")]] in
  let topics_data : list row :=
    [list_to_map [("subject_key", "physics"); ("topic_id", "phy-t1");
                  ("topic_name", "Newton's Laws")];
     list_to_map [("subject_key", "math"); ("topic_name", "Sets")];
     list_to_map [("subject_key", "math"); ("topic_id", "m-t1");
                  ("topic_name", "Whole Numbers")]] in
  dict_to_list index_fieldnames
    <$> index_rows (subjects_of subjects_data)
                   (foldl mapping_step [] topics_data)
  = [["physics"; "Physics"; "phy-t1"; "Newton's Laws"; "Newtons_Laws"];
     ["math"; "math"; "m-t1"; "Whole Numbers"; "Whole_Numbers"]].
Proof. vm_compute. reflexivity. Qed.

End master_index.

(** ** Reading a sheet *)

(** Unfolds the monad's operations. *)
Ltac run_monad :=
  unfold try_except, mbind, M_bind, bind, lift, mret, M_ret, ret, raise,
    ConvertToCsv.print, ConvertToCsv.set_fs, modify in *.

Section read_excel_sheet.
Import ConvertToCsv PathLib.
Variable load_workbook : path → result workbook.

Lemma kept_rows_filter headers (values : list (list cell)) (data : list row) :
  foldl (λ data values,
           let d := row_dict headers values in
           if any_value d then data ++ [d] else data) data values
  = data ++ filter (λ d, any_value d = true) (row_dict headers <$> values).
Proof.
  revert data. induction values as [|v values IH]; intros data.
  { simpl. by rewrite app_nil_r. }
  cbn [foldl]. rewrite IH, fmap_cons, filter_cons. cbv zeta.
  destruct (any_value (row_dict headers v)) eqn:Hany.
  - rewrite decide_True by done. by rewrite <- app_assoc.
  - rewrite decide_False by done. done.
Qed.

(** C4: [read_excel_sheet] returns for every path, sheet name and outcome
    of opening the workbook: it never raises and leaves the file system as
    it is.  When the workbook cannot be opened it logs an error and returns
    the empty list; when the workbook has no sheet of that name it logs a
    warning and returns the empty list; otherwise it logs nothing and
    returns the non-blank rows of the sheet. *)
Theorem read_excel_sheet_never_raises (file_path : path)
  (sheet_name : string) (w : world) :
  ∃ data w',
    read_excel_sheet load_workbook file_path sheet_name w = (w', Ok data)
    ∧ fs w' = fs w
    ∧ (∀ e, load_workbook file_path = Raise e →
         data = []
         ∧ console w'
           = console w ++ ["  [ERROR] Error reading " +:+ name file_path +:+ "/"
                           +:+ sheet_name +:+ ": " +:+ exn_str e])
    ∧ (∀ wb, load_workbook file_path = Ok wb → sheet_name ∉ wb.*1 →
         data = []
         ∧ console w'
           = console w ++ ["  [WARN] Sheet '" +:+ sheet_name
                           +:+ "' not found in " +:+ name file_path])
    ∧ (∀ wb, load_workbook file_path = Ok wb → sheet_name ∈ wb.*1 →
         ∃ ws, od_get sheet_name wb = Some ws
           ∧ console w' = console w
           ∧ data = filter (λ d, any_value d = true)
                      (row_dict (clean_cell_value <$> hd [] ws) <$> tl ws)).
Proof.
  unfold read_excel_sheet. run_monad.
  destruct (load_workbook file_path) as [wb|e] eqn:Hload.
  - destruct (bool_decide (sheet_name ∈ wb.*1)) eqn:Hin; simpl.
    + apply bool_decide_eq_true in Hin.
      unfold wb_getitem.
      destruct (od_get sheet_name wb) as [ws|] eqn:Hget.
      2:{ apply od_get_None in Hget. done. }
      eexists _, _. split; [done|]. split; [done|]. split_and!.
      * intros e ?. simplify_eq.
      * intros wb' ? Hnot. by simplify_eq.
      * intros wb' ? _. simplify_eq. exists ws. split_and!; try done.
        by rewrite kept_rows_filter.
    + apply bool_decide_eq_false in Hin.
      eexists _, _. split; [done|]. split; [done|]. split_and!.
      * intros e ?. simplify_eq.
      * intros wb' ? _. by simplify_eq.
      * intros wb' ? Hyes. by simplify_eq.
  - eexists _, _. split; [done|]. split; [done|]. split_and!.
    + intros e' ?. by simplify_eq.
    + intros wb ?. simplify_eq.
    + intros wb ?. simplify_eq.
Qed.

Lemma read_excel_sheet_returns file_path sheet_name w :
  ∃ lines,
    read_excel_sheet load_workbook file_path sheet_name w
    = (World (console w ++ lines) (fs w),
       Ok (sheet_rows load_workbook file_path sheet_name)).
Proof.
  unfold sheet_rows, read_excel_sheet. run_monad.
  destruct (load_workbook file_path) as [wb|e]; simpl.
  - destruct (bool_decide (sheet_name ∈ wb.*1)); simpl.
    + destruct (wb_getitem wb sheet_name); simpl.
      * exists []. destruct w. by rewrite app_nil_r.
      * by eexists [_].
    + by eexists [_].
  - by eexists [_].
Qed.

End read_excel_sheet.

(** The subject lookup and the topic mapping are those of the rows of the
    Subjects and Topics sheets of the master workbook. *)
Lemma get_subject_topic_mapping_returns
  (BASE_DIR : PathLib.path)
  (load_workbook : PathLib.path → result ConvertToCsv.workbook)
  (w : ConvertToCsv.world) :
  let master_file :=
    ConvertToCsv.DATA_DIR BASE_DIR // "StudyHub_Master.xlsx" in
  ∃ lines,
    ConvertToCsv.get_subject_topic_mapping BASE_DIR load_workbook w
    = (ConvertToCsv.World (ConvertToCsv.console w ++ lines)
                          (ConvertToCsv.fs w),
       Ok (ConvertToCsv.subjects_of
             (sheet_rows load_workbook master_file "Subjects"),
           foldl ConvertToCsv.mapping_step []
                 (sheet_rows load_workbook master_file "Topics"))).
Proof.
  intros master_file. unfold ConvertToCsv.get_subject_topic_mapping.
  fold master_file. unfold mbind, M_bind, bind.
  destruct (read_excel_sheet_returns load_workbook master_file "Subjects" w)
    as [lines1 ->].
  destruct (read_excel_sheet_returns load_workbook master_file "Topics"
              (ConvertToCsv.World (ConvertToCsv.console w ++ lines1)
                                  (ConvertToCsv.fs w)))
    as [lines2 ->].
  exists (lines1 ++ lines2). simpl. by rewrite app_assoc.
Qed.

(** ** Writing a CSV file *)

Section write_csv.
Import ConvertToCsv PathLib.
Variable BASE_DIR : path.

Lemma prefixes_elem (p q : path) :
  q ∈ prefixes p → 1 ≤ length q ≤ length p.
Proof.
  unfold prefixes. intros (n & -> & Hn)%list_elem_of_fmap.
  apply elem_of_seq in Hn. rewrite length_take. lia.
Qed.

Lemma prefixes_self (p : path) : p ≠ [] → p ∈ prefixes p.
Proof.
  intros Hp. unfold prefixes. apply list_elem_of_fmap.
  exists (length p). split; [by rewrite firstn_all|].
  apply elem_of_seq. destruct p; [done | simpl; lia].
Qed.

Lemma parent_length (p : path) : length (parent p) = length p - 1.
Proof.
  unfold parent. induction p as [|c [|c' p] IH]; [done..|].
  change (removelast (c :: c' :: p)) with (c :: removelast (c' :: p)).
  simpl in *. rewrite IH. lia.
Qed.

Lemma not_in_parent_prefixes (p : path) : p ∉ prefixes (parent p).
Proof.
  intros Hin%prefixes_elem. rewrite parent_length in Hin. lia.
Qed.

Lemma lookup_make_directories (dirs : list path) (m : gmap path node)
  (q : path) :
  make_directories dirs m !! q
  = if decide (q ∈ dirs) then Some Directory else m !! q.
Proof.
  unfold make_directories.
  induction dirs as [|d dirs IH]; cbn [foldr].
  - rewrite decide_False; [done | apply not_elem_of_nil].
  - destruct (decide (d = q)) as [->|Hne].
    + rewrite lookup_insert_eq, decide_True; [done | by left].
    + rewrite lookup_insert_ne, IH by done.
      destruct (decide (q ∈ dirs)), (decide (q ∈ d :: dirs)) as [Hin|Hnin];
        try done.
      * destruct Hnin. by right.
      * by apply elem_of_cons in Hin as [->|?].
Qed.

Lemma is_dir_made (m : gmap path node) (p : path) :
  is_dir (make_directories (prefixes (parent p)) m) (parent p) = true.
Proof.
  unfold is_dir. destruct (parent p) as [|c q] eqn:Hq; [done|].
  apply bool_decide_eq_true. rewrite lookup_make_directories.
  rewrite decide_True; [done | by apply prefixes_self].
Qed.

(** The rows a file holds after [writerows]. *)
Lemma writerows_run (p : path) (f : row → list string) (data : list row)
  (rows : list (list string)) (c : list string) (m : gmap path node) :
  for_each data (λ r, writerow p (f r)) (World c (<[p := File rows]> m))
  = (World c (<[p := File (rows ++ (f <$> data))]> m), Ok tt).
Proof.
  revert rows. induction data as [|r data IH]; intros rows; simpl.
  - by rewrite app_nil_r.
  - unfold bind at 1, writerow at 1. run_monad. simpl.
    rewrite alter_insert_eq. rewrite IH. by rewrite <- app_assoc.
Qed.

Lemma find_none_Forall {A} (f : A → bool) (l : list A) :
  List.find f l = None ↔ Forall (λ x, f x = false) l.
Proof.
  induction l as [|x l IH]; simpl.
  - split; [constructor | done].
  - rewrite Forall_cons. destruct (f x); [|rewrite IH].
    + split; [done | by intros [? _]].
    + split; [by split | by intros [_ ?]].
Qed.

(** [write_csv] when no regular file stands where a directory is needed. *)
Lemma write_csv_run (p : path) (data : list row) (fieldnames : list string)
  (w : world) :
  data ≠ [] →
  List.find (λ q, is_file (fs w !! q)) (prefixes (parent p)) = None →
  ∃ lines,
    write_csv BASE_DIR p data fieldnames w
    = (World (console w ++ lines) (written fieldnames data p (fs w)), Ok tt).
Proof.
  intros Hdata Hfind. unfold write_csv.
  destruct data as [|r0 data0] eqn:Hd; [done|]. rewrite <- Hd. clear Hd Hdata.
  unfold mkdir_parents, written, open_w. run_monad. rewrite Hfind. simpl.
  set (m1 := make_directories (prefixes (parent p)) (fs w)).
  assert (∃ lines,
    (let (s', r) :=
       let (s', r) :=
         for_each data (λ r, writerow p (dict_to_list fieldnames r))
           (World (console w) (<[p := File [fieldnames]]> m1)) in
       match r with
       | Ok _ =>
           match relative_to p BASE_DIR with
           | Ok a0 =>
               (World (console s' ++ ["  [+] Created: " +:+ str_relative a0])
                      (fs s'), Ok ())
           | Raise e => (s', Raise e)
           end
       | Raise e => (s', Raise e)
       end in
     match r with
     | Ok a => (s', Ok a)
     | Raise e =>
         (World (console s' ++ ["  [ERROR] Error writing " +:+ str p +:+ ": "
                                +:+ exn_str e]) (fs s'), Ok ())
     end)
    = (World (console w ++ lines)
             (<[p := File (csv_table fieldnames data)]> m1), Ok ()))
    as Hwritten.
  { rewrite writerows_run.
    destruct (relative_to p BASE_DIR); simpl; by eexists [_]. }
  destruct (m1 !! p) as [[|old]|] eqn:Hp.
  - by eexists [_].
  - unfold m1 at 1. rewrite is_dir_made. simpl.
    by rewrite alter_insert_eq.
  - unfold m1 at 1. rewrite is_dir_made. simpl.
    by rewrite alter_insert_eq.
Qed.

(** [write_csv] when a regular file stands where a directory is needed. *)
Lemma write_csv_blocked (p : path) (data : list row)
  (fieldnames : list string) (w : world) (q : path) :
  data ≠ [] →
  List.find (λ q, is_file (fs w !! q)) (prefixes (parent p)) = Some q →
  ∃ e, write_csv BASE_DIR p data fieldnames w = (w, Raise e).
Proof.
  intros Hdata Hfind. unfold write_csv.
  destruct data as [|r0 data0] eqn:Hd; [done|].
  unfold mkdir_parents. run_monad. rewrite Hfind. by eexists.
Qed.

Lemma written_lookup (fieldnames : list string) (data : list row)
  (p q : path) (m : gmap path node) :
  written fieldnames data p m !! q
  = if decide (q ∈ prefixes (parent p)) then Some Directory
    else if decide (q = p) then
           match m !! p with
           | Some Directory => Some Directory
           | _ => Some (File (csv_table fieldnames data))
           end
    else m !! q.
Proof.
  unfold written. cbv zeta.
  assert (make_directories (prefixes (parent p)) m !! p = m !! p) as Hp.
  { rewrite lookup_make_directories.
    rewrite decide_False; [done | apply not_in_parent_prefixes]. }
  rewrite Hp.
  assert (∀ x, (<[p := x]> (make_directories (prefixes (parent p)) m)) !! q
               = if decide (q ∈ prefixes (parent p)) then Some Directory
                 else if decide (q = p) then Some x else m !! q) as Hins.
  { intros x. destruct (decide (q = p)) as [->|Hne].
    - rewrite lookup_insert_eq.
      rewrite decide_False; [done | apply not_in_parent_prefixes].
    - rewrite lookup_insert_ne by done. apply lookup_make_directories. }
  destruct (m !! p) as [[|old]|] eqn:Hmp; rewrite ?Hins; try done.
  rewrite lookup_make_directories.
  destruct (decide (q ∈ _)); [done|].
  destruct (decide (q = p)) as [->|]; done.
Qed.

Lemma dict_to_list_lookup (fieldnames : list string) (r : row) i key :
  fieldnames !! i = Some key →
  dict_to_list fieldnames r !! i
  = Some (match r !! key with Some value => value | None => "" end).
Proof.
  intros Hi. unfold dict_to_list. rewrite list_lookup_fmap, Hi. simpl.
  unfold get. by destruct (r !! key).
Qed.

(** C5: with no record, [write_csv] logs a warning and leaves the file
    system as it is.  With records, and no regular file where a directory
    is needed nor a directory in the place of the file, it returns and the
    file then holds the header and one row per record, whatever the path
    held before: the fields of a row are the record's values for
    [fieldnames], in that order, the empty text standing for a field the
    record lacks; a row has as many fields as [fieldnames], so what else a
    record holds is not written. *)
Theorem write_csv_behaviour (file_path : path) (fieldnames : list string)
  (w : world) :
  write_csv BASE_DIR file_path [] fieldnames w
  = (World (console w ++ ["  [WARN] No data to write to " +:+ str file_path])
           (fs w), Ok tt)
  ∧ (∀ data : list row,
       data ≠ [] →
       Forall (λ q, is_file (fs w !! q) = false) (prefixes (parent file_path)) →
       fs w !! file_path ≠ Some Directory →
       ∃ w', write_csv BASE_DIR file_path data fieldnames w = (w', Ok tt)
             ∧ fs w' !! file_path
               = Some (File (fieldnames :: (dict_to_list fieldnames <$> data))))
  ∧ (∀ r : row,
       length (dict_to_list fieldnames r) = length fieldnames
       ∧ ∀ i key, fieldnames !! i = Some key →
           dict_to_list fieldnames r !! i
           = Some (match r !! key with Some value => value | None => "" end))
  ∧ (∀ r r' : row,
       (∀ key, key ∈ fieldnames → r !! key = r' !! key) →
       dict_to_list fieldnames r = dict_to_list fieldnames r').
Proof.
  split_and!.
  - done.
  - intros data Hdata Hfiles Hnodir.
    apply find_none_Forall in Hfiles.
    destruct (write_csv_run file_path data fieldnames w Hdata Hfiles)
      as [lines Hrun].
    eexists. split; [exact Hrun|]. simpl.
    rewrite written_lookup.
    rewrite decide_False by apply not_in_parent_prefixes.
    rewrite decide_True by done.
    by destruct (fs w !! file_path) as [[|old]|].
  - intros r. split.
    + unfold dict_to_list. by rewrite length_fmap.
    + intros i key. apply dict_to_list_lookup.
  - intros r r' Hsame. unfold dict_to_list, get.
    apply list_fmap_ext. intros i key Hi.
    rewrite Hsame; [done|]. by eapply list_elem_of_lookup_2.
Qed.

End write_csv.

Section write_csv_example.
Import ConvertToCsv PathLib.

(** A file of three rows is replaced by the header and the two records;
    the record's field [extra] is not written and the missing [hint] is
    empty. *)
Lemma write_csv_behaviour_witness :
  let file_path := ["app"; "public"; "questionnaire"; "q.csv"] in
  let data : list row :=
    [list_to_map [("question_id", "q1"); ("extra", "x")];
     list_to_map [("question_id", "q2"); ("hint", "h")]] in
  let w := World [] {[ file_path := File [["old"]; ["a"]; ["b"]] ]} in
  ∃ w', write_csv ["app"] file_path data ["question_id"; "hint"] w
        = (w', Ok tt)
        ∧ fs w' !! file_path
          = Some (File [["question_id"; "hint"]; ["q1"; ""]; ["q2"; "h"]]).
Proof.
  intros file_path data w.
  destruct (write_csv_behaviour ["app"] file_path ["question_id"; "hint"] w)
    as (_ & Hwrite & _).
  apply (Hwrite data); [done | by vm_compute; repeat constructor | done].
Defined.

End write_csv_example.

(** ** The quiz pass *)

Section quiz_pass.
Import ConvertToCsv PathLib.
Variable BASE_DIR : path.
Variable load_workbook : path → result workbook.
Variable subject_files : list path.

Lemma quiz_by_topic_get (quiz_data : list row) t :
  od_get t (quiz_by_topic quiz_data)
  = if decide (t = "") then None else entry_of (rows_of_topic t quiz_data).
Proof.
  unfold quiz_by_topic. rewrite od_get_group. case_decide; [done|].
  rewrite list_fmap_id. simpl. by destruct (rows_of_topic t quiz_data).
Qed.

Lemma quiz_by_topic_elem (quiz_data : list row) t questions :
  (t, questions) ∈ quiz_by_topic quiz_data →
  t ≠ "" ∧ questions ≠ [] ∧ questions = rows_of_topic t quiz_data.
Proof.
  intros Hin. apply od_elem_get in Hin.
  2:{ unfold quiz_by_topic. apply group_keys_NoDup. constructor. }
  rewrite quiz_by_topic_get in Hin. case_decide; [done|].
  destruct (rows_of_topic t quiz_data) eqn:Hc; simpl in Hin; [done|].
  by simplify_eq.
Qed.

(** What [write_csv] can have done to a path that holds a file. *)
Lemma write_csv_effect (p : path) (data : list row) (fieldnames : list string)
  (w : world) (q : path) (content : list (list string)) :
  fs (write_csv BASE_DIR p data fieldnames w).1 !! q = Some (File content) →
  fs w !! q = Some (File content)
  ∨ (q = p ∧ data ≠ [] ∧ content = csv_table fieldnames data).
Proof.
  destruct (decide (data = [])) as [->|Hdata]; [by left|].
  destruct (List.find (λ q, is_file (fs w !! q)) (prefixes (parent p)))
    as [blocking|] eqn:Hfind.
  - destruct (write_csv_blocked BASE_DIR p data fieldnames w blocking Hdata Hfind)
      as [e ->]. by left.
  - destruct (write_csv_run BASE_DIR p data fieldnames w Hdata Hfind)
      as [lines ->]. simpl. rewrite written_lookup.
    destruct (decide (q ∈ _)); [done|].
    destruct (decide (q = p)) as [->|]; [|by left].
    destruct (fs w !! p) as [[|old]|]; intros; simplify_eq; by right.
Qed.

Lemma holds_print (I : world → Prop) (line : string) :
  (∀ w c, I w → I (World c (fs w))) → holds I (print line) (λ _, True).
Proof. intros HI. apply holds_modify. intros w Hw. by apply HI. Qed.

Lemma holds_read_excel_sheet (I : world → Prop) file_path sheet_name :
  (∀ w c, I w → I (World c (fs w))) →
  holds I (read_excel_sheet load_workbook file_path sheet_name)
        (λ data, data = sheet_rows load_workbook file_path sheet_name).
Proof.
  intros HI w Hw.
  destruct (read_excel_sheet_returns load_workbook file_path sheet_name w)
    as [lines ->]. simpl. split; [by apply HI|]. by intros a [= <-].
Qed.

Lemma quiz_written_console w0 w c :
  quiz_written BASE_DIR load_workbook subject_files w0 w →
  quiz_written BASE_DIR load_workbook subject_files w0 (World c (fs w)).
Proof. done. Qed.

Lemma convert_quiz_questions_written w0 :
  holds (quiz_written BASE_DIR load_workbook subject_files w0)
        (convert_quiz_questions BASE_DIR load_workbook subject_files)
        (λ _, True).
Proof.
  unfold convert_quiz_questions.
  eapply holds_bind; [apply holds_print, quiz_written_console|].
  intros _ _. apply holds_for_each. intros subject_file Hfile.
  eapply holds_bind; [apply holds_print, quiz_written_console|].
  intros _ _. eapply holds_bind.
  { apply holds_read_excel_sheet, quiz_written_console. }
  intros quiz_data ->. apply holds_for_each. intros [topic_id questions] Hgroup.
  intros w Hw. split; [|done]. intros q content Hq.
  apply write_csv_effect in Hq as [Hq|(-> & _ & ->)]; [by apply Hw|].
  right. by exists subject_file, topic_id, questions.
Qed.

(** C1 (as amended): every file the quiz pass creates or changes is the
    table of one topic group of one subject workbook - the rows of its
    Quiz_Questions sheet that carry the topic id - written under the twelve
    fields question_id, topic_id, question_text, option_a, option_b,
    option_c, option_d, correct_answer, explanation, difficulty, hint and
    xp_reward, in that order: every row has twelve fields, the values of
    the record for these names, and nothing else a record holds. *)
Theorem quiz_files_projection (w : world) (q : path)
  (content : list (list string)) :
  fs (convert_quiz_questions BASE_DIR load_workbook subject_files w).1 !! q
  = Some (File content) →
  fs w !! q ≠ Some (File content) →
  ∃ subject_file topic_id questions,
    subject_file ∈ subject_files
    ∧ topic_id ≠ ""
    ∧ questions
      = rows_of_topic topic_id
          (sheet_rows load_workbook subject_file "Quiz_Questions")
    ∧ q = quiz_output_path BASE_DIR (stem subject_file) topic_id questions
    ∧ content = quiz_fieldnames :: (dict_to_list quiz_fieldnames <$> questions)
    ∧ quiz_fieldnames
      = ["question_id"; "topic_id"; "question_text"; "option_a"; "option_b";
         "option_c"; "option_d"; "correct_answer"; "explanation";
         "difficulty"; "hint"; "xp_reward"]
    ∧ Forall (λ fields, length fields = 12) content
    ∧ ∀ r : row,
        dict_to_list quiz_fieldnames r
        = [get r "question_id" ""; get r "topic_id" "";
           get r "question_text" ""; get r "option_a" ""; get r "option_b" "";
           get r "option_c" ""; get r "option_d" ""; get r "correct_answer" "";
           get r "explanation" ""; get r "difficulty" ""; get r "hint" "";
           get r "xp_reward" ""].
Proof.
  intros Hafter Hbefore.
  destruct (convert_quiz_questions_written w w) as [Hwritten _].
  { intros q' content' ?. by left. }
  apply Hwritten in Hafter as [?|Hfile]; [done|].
  destruct Hfile as (subject_file & topic_id & questions & Hsf & Hgroup & -> & ->).
  apply quiz_by_topic_elem in Hgroup as (Htid & _ & Hrows).
  exists subject_file, topic_id, questions. split_and!; try done.
  unfold csv_table. apply Forall_cons. split; [done|].
  apply Forall_fmap, Forall_forall. intros r _. done.
Qed.

End quiz_pass.

Section quiz_pass_example.
Import ConvertToCsv PathLib.

(** The quiz pass on the example workbook writes one file, and the
    theorem accounts for it. *)
Lemma quiz_files_projection_witness :
  ∃ subject_file topic_id questions,
    subject_file ∈ [Example.physics_xlsx]
    ∧ topic_id ≠ ""
    ∧ questions
      = rows_of_topic topic_id
          (sheet_rows Example.load_workbook subject_file "Quiz_Questions")
    ∧ Example.questions_csv
      = quiz_output_path Example.BASE_DIR (stem subject_file) topic_id questions
    ∧ [quiz_fieldnames;
       ["q1"; "phy-t1"; "What is force?"; ""; ""; ""; ""; ""; ""; ""; ""; ""]]
      = quiz_fieldnames :: (dict_to_list quiz_fieldnames <$> questions)
    ∧ quiz_fieldnames
      = ["question_id"; "topic_id"; "question_text"; "option_a"; "option_b";
         "option_c"; "option_d"; "correct_answer"; "explanation";
         "difficulty"; "hint"; "xp_reward"]
    ∧ Forall (λ fields, length fields = 12)
        [quiz_fieldnames;
         ["q1"; "phy-t1"; "What is force?"; ""; ""; ""; ""; ""; ""; ""; ""; ""]]
    ∧ ∀ r : row,
        dict_to_list quiz_fieldnames r
        = [get r "question_id" ""; get r "topic_id" "";
           get r "question_text" ""; get r "option_a" ""; get r "option_b" "";
           get r "option_c" ""; get r "option_d" ""; get r "correct_answer" "";
           get r "explanation" ""; get r "difficulty" ""; get r "hint" "";
           get r "xp_reward" ""].
Proof.
  apply (quiz_files_projection Example.BASE_DIR Example.load_workbook
           [Example.physics_xlsx] Example.empty_world).
  - vm_compute. reflexivity.
  - vm_compute. discriminate.
Defined.

(** The claim as it was stated, with an 11-field projection, fails on the
    example workbook: the rows of the file written have twelve fields. *)
Lemma quiz_projection_not_11_fields :
  ∃ content,
    fs (convert_quiz_questions Example.BASE_DIR Example.load_workbook
          [Example.physics_xlsx] Example.empty_world).1
      !! Example.questions_csv = Some (File content)
    ∧ ¬ Forall (λ fields, length fields = 11) content.
Proof.
  eexists. split; [vm_compute; reflexivity|].
  intros Hall. apply Forall_cons in Hall as [Hlen _]. vm_compute in Hlen.
  discriminate.
Qed.

End quiz_pass_example.

(** ** The validator's report *)

(** Unfolds the monad's operations in the validator. *)
Ltac run_validator :=
  unfold try_except, mbind, M_bind, bind, lift, mret, M_ret, ret, raise,
    ValidateStructure.log_error, ValidateStructure.log_warn,
    ValidateStructure.on_report, ValidateStructure.print_report, modify in *.

Section report_invariant.
Import ValidateStructure PathLib.

Lemma holds_filter_m {S A} (I : S → Prop) (keep : A → M S bool)
  (xs : list A) :
  (∀ x, holds I (keep x) (λ _, True)) →
  holds I (filter_m keep xs) (λ _, True).
Proof.
  intros Hkeep. induction xs as [|x xs IH]; simpl.
  - by apply holds_ret.
  - eapply holds_bind; [apply Hkeep|]. intros b _.
    eapply holds_bind; [apply IH|]. intros rest _. by apply holds_ret.
Qed.

Lemma holds_fold_each {S A B} (I : S → Prop) (xs : list A) (acc : B)
  (body : B → A → M S B) :
  (∀ acc x, holds I (body acc x) (λ _, True)) →
  holds I (fold_each xs acc body) (λ _, True).
Proof.
  intros Hbody. revert acc. induction xs as [|x xs IH]; intros acc; simpl.
  - by apply holds_ret.
  - eapply holds_bind; [apply Hbody|]. intros acc' _. apply IH.
Qed.

Lemma holds_true {S A} (I : S → Prop) (m : M S A) (Q : A → Prop) :
  holds I m Q → holds I m (λ _, True).
Proof. intros Hm. eapply holds_weaken; [exact Hm | done]. Qed.

(** A property of the state that every update of the report keeps is kept
    by the whole walk, whether it returns or raises. *)
Section walk_invariant.
Variable os : file_system.
Variable PUBLIC_DIR : path.
Variable I : state → Prop.
Hypothesis I_update :
  ∀ f, (f = record_error ∨ f = record_warn) →
       ∀ msg p, holds I (on_report (f msg p)) (λ _, True).
Hypothesis I_stats :
  ∀ f, (f = add_files_checked ∨ f = add_valid_files) →
       ∀ n, holds I (on_report (f n)) (λ _, True).

Local Ltac step :=
  lazymatch goal with
  | |- holds _ (bind _ _) _ =>
      eapply (holds_bind _ _ _ (λ _, True)); [|intros ? _]
  | |- holds _ (lift _) _ => eapply holds_true, holds_lift
  | |- holds _ (ret _) _ => by apply holds_ret
  | |- holds _ (log_error _ _) _ => apply (I_update record_error); by left
  | |- holds _ (log_warn _ _) _ => apply (I_update record_warn); by right
  | |- holds _ (on_report (add_files_checked _)) _ =>
      apply (I_stats add_files_checked); by left
  | |- holds _ (on_report (add_valid_files _)) _ =>
      apply (I_stats add_valid_files); by right
  | |- holds _ (for_each _ _) _ => apply holds_for_each; intros ? ?
  | |- holds _ (fold_each _ _ _) _ => apply holds_fold_each; intros ? ?
  | |- holds _ (filter_m _ _) _ => apply holds_filter_m; intros ?
  | |- holds _ (if ?b then _ else _) _ => destruct b
  | |- holds _ (match ?l with [] => _ | _ :: _ => _ end) _ => destruct l
  end.

Lemma validate_studyguide_holds path :
  holds I (validate_studyguide os path) (λ _, True).
Proof.
  unfold validate_studyguide, classify_page.
  cbv beta delta [mbind M_bind mret M_ret].
  repeat step.
Qed.

Lemma validate_questionnaire_holds path :
  holds I (validate_questionnaire os path) (λ _, True).
Proof.
  unfold validate_questionnaire. cbv beta delta [mbind M_bind mret M_ret].
  repeat step.
Qed.

Lemma validate_handout_holds path :
  holds I (validate_handout os path) (λ _, True).
Proof.
  unfold validate_handout. cbv beta delta [mbind M_bind mret M_ret].
  repeat step.
Qed.

Lemma validate_topic_holds topic_path :
  holds I (validate_topic os topic_path) (λ _, True).
Proof.
  unfold validate_topic. cbv beta delta [mbind M_bind mret M_ret].
  repeat step;
    [apply validate_studyguide_holds | apply validate_questionnaire_holds
    | apply validate_handout_holds].
Qed.

Lemma validate_structure_holds :
  holds I (validate_structure os PUBLIC_DIR) (λ _, True).
Proof.
  unfold validate_structure. cbv beta delta [mbind M_bind mret M_ret].
  repeat step. apply validate_topic_holds.
Qed.

End walk_invariant.
End report_invariant.

Section final_report.
Import ValidateStructure PathLib.

Lemma record_error_consistent msg p r : consistent (record_error msg p r).
Proof.
  unfold consistent, record_error. simpl. split; [|done].
  intros _ Hnil. by apply app_nil in Hnil as [_ ?].
Qed.

Lemma record_warn_consistent msg p r :
  consistent r → consistent (record_warn msg p r).
Proof. done. Qed.

Lemma consistent_kept (os : file_system) (PUBLIC_DIR : path) :
  holds (λ s, consistent (report s)) (main os PUBLIC_DIR) (λ _, True).
Proof.
  unfold main. cbv beta delta [mbind M_bind mret M_ret].
  assert (∀ msg p, holds (λ s, consistent (report s)) (log_error msg p)
                         (λ _, True)) as Herror.
  { intros msg p. apply holds_modify. intros s _.
    apply record_error_consistent. }
  eapply (holds_bind _ _ _ (λ _, True)).
  - apply holds_try_except; [|intros e; apply Herror].
    apply validate_structure_holds.
    + intros f [-> | ->] msg p; [apply Herror|].
      apply holds_modify. intros s Hs. by apply record_warn_consistent.
    + intros f [-> | ->] n; by apply holds_modify.
  - intros _ _. by apply holds_modify.
Qed.

Lemma stdout_kept (os : file_system) (PUBLIC_DIR : path) (out : list report_t) :
  holds (λ s, stdout s = out) (validate_structure os PUBLIC_DIR) (λ _, True).
Proof.
  apply validate_structure_holds.
  - intros f _ msg p. by apply holds_modify.
  - intros f _ n. by apply holds_modify.
Qed.

Lemma main_run (os : file_system) (PUBLIC_DIR : path) (s0 : state) :
  let walk := validate_structure os PUBLIC_DIR s0 in
  let final :=
    match walk.2 with
    | Ok _ => report walk.1
    | Raise e =>
        record_error ("Validation script crashed: " +:+ exn_str e) None
                     (report walk.1)
    end in
  main os PUBLIC_DIR s0 = (State final (stdout s0 ++ [final]), Ok tt).
Proof.
  intros walk final. subst final.
  pose proof (stdout_kept os PUBLIC_DIR (stdout s0) s0 eq_refl) as [Hout _].
  fold walk in Hout. unfold main. run_validator. fold walk.
  destruct walk as [s1 [[]|e]]; simpl in *; by rewrite Hout.
Qed.

(** C6: the status of the report is "failed" exactly when the report has
    an error.  The report starts that way; recording an error makes it so;
    recording a warning changes neither the status nor the errors; the
    counters of the statistics touch neither; and so the report every run
    ends with, and prints, has status "failed" exactly when it has an
    error. *)
Theorem status_failed_iff_errors :
  consistent initial_report
  ∧ (∀ msg p r, consistent (record_error msg p r))
  ∧ (∀ msg p r,
       status (record_warn msg p r) = status r
       ∧ errors (record_warn msg p r) = errors r
       ∧ (consistent r → consistent (record_warn msg p r)))
  ∧ (∀ n r,
       consistent r →
       consistent (add_files_checked n r) ∧ consistent (add_valid_files n r))
  ∧ (∀ (os : file_system) (PUBLIC_DIR : path),
       let final := report (run os PUBLIC_DIR).1 in
       (status final = "failed" ↔ errors final ≠ [])
       ∧ (status final = "failed" ∨ status final = "success")).
Proof.
  split_and!; try done.
  - apply record_error_consistent.
  - intros os PUBLIC_DIR final. split.
    + apply (consistent_kept os PUBLIC_DIR (State initial_report [])). done.
    + assert (holds (λ s, status (report s) = "failed"
                          ∨ status (report s) = "success")
                    (main os PUBLIC_DIR) (λ _, True)) as Hstatus.
      { unfold main. cbv beta delta [mbind M_bind mret M_ret].
        eapply (holds_bind _ _ _ (λ _, True)).
        - apply holds_try_except.
          + apply validate_structure_holds.
            * intros f [-> | ->] msg p; apply holds_modify; intros s Hs;
                [by left | done].
            * intros f [-> | ->] n; by apply holds_modify.
          + intros e. apply holds_modify. intros s _. by left.
        - intros _ _. by apply holds_modify. }
      apply (Hstatus (State initial_report [])). by right.
Qed.

(** C9: the run always returns and prints exactly one report, the final
    one.  When the walk returns, that is the report the walk left; when the
    walk raises an exception, it is the report the walk had reached with
    one more error entry, the crash message, and status "failed", the
    warnings and the statistics being those the walk had reached. *)
Theorem crash_becomes_one_error (os : file_system) (PUBLIC_DIR : path) :
  let walk := validate_structure os PUBLIC_DIR (State initial_report []) in
  ∃ final,
    run os PUBLIC_DIR = (State final [final], Ok tt)
    ∧ match walk.2 with
      | Ok _ => final = report walk.1
      | Raise e =>
          errors final
          = errors (report walk.1)
            ++ ["[ERROR] Validation script crashed: " +:+ exn_str e]
          ∧ status final = "failed"
          ∧ warnings final = warnings (report walk.1)
          ∧ stats final = stats (report walk.1)
      end.
Proof.
  intros walk. unfold run. rewrite main_run. fold walk.
  eexists. split; [done|]. by destruct (walk.2).
Qed.

End final_report.

(** ** The studyguide rule *)

Section studyguide.
Import ValidateStructure PathLib.
Variable os : file_system.

Lemma truthy_str (p : path) : Py.truthy (str p) = true.
Proof. done. Qed.

Lemma record_warn_stray (f : path) (r : report_t) :
  record_warn ("Stray or unknown file type: " +:+ name f) (Some (str f)) r
  = Report (status r) (errors r) (warnings r ++ [stray_warning f]) (stats r).
Proof. done. Qed.

Lemma classify_page_run (valid_count : nat) (f : path) (r : report_t)
  (out : list report_t) :
  classify_page valid_count f (State r out)
  = if bool_decide (name f = "index.csv") then (State r out, Ok valid_count)
    else if bool_decide (suffix f ∉ allowed_suffixes) then
      (State (Report (status r) (errors r) (warnings r ++ [stray_warning f])
                     (stats r)) out, Ok valid_count)
    else (State r out, Ok (valid_count + 1)).
Proof.
  unfold classify_page. run_validator.
  destruct (bool_decide (name f = "index.csv")); [done|].
  by destruct (bool_decide (suffix f ∉ allowed_suffixes)).
Qed.

(** The loop over the files of [Pages]: a warning for every file that is
    not [index.csv] and has no allowed suffix, one more in the counter for
    every file that is not [index.csv] and has one. *)
Lemma classify_run (files : list path) (valid_count : nat) (r : report_t)
  (out : list report_t) :
  fold_each files valid_count classify_page (State r out)
  = (State
       (Report (status r) (errors r)
          (warnings r
           ++ (stray_warning
                 <$> filter (λ f, name f ≠ "index.csv"
                                  ∧ suffix f ∉ allowed_suffixes) files))
          (stats r)) out,
     Ok (valid_count
         + length (filter (λ f, name f ≠ "index.csv"
                                ∧ suffix f ∈ allowed_suffixes) files))).
Proof.
  revert valid_count r.
  induction files as [|f files IH]; intros valid_count r.
  { simpl. rewrite app_nil_r, Nat.add_0_r. by destruct r. }
  cbn [fold_each]. rewrite !filter_cons.
  unfold mbind, M_bind, bind. rewrite classify_page_run.
  destruct (decide (name f = "index.csv")) as [Hname|Hname].
  - rewrite bool_decide_eq_true_2 by done.
    rewrite !decide_False by (by intros [? _]). apply IH.
  - rewrite bool_decide_eq_false_2 by done.
    destruct (decide (suffix f ∉ allowed_suffixes)) as [Hsuffix|Hsuffix].
    + rewrite bool_decide_eq_true_2 by done.
      rewrite decide_True by done.
      rewrite decide_False by (by intros [_ ?]).
      rewrite IH. simpl. by rewrite <- app_assoc.
    + rewrite bool_decide_eq_false_2 by done.
      rewrite decide_False by (by intros [_ ?]).
      rewrite decide_True by (split; [done | by apply dec_stable]).
      rewrite IH. simpl. do 2 f_equal. lia.
Qed.

(** [validate_studyguide] once [Pages] is known to exist, the index lookup
    has returned and the files of [Pages] are listed. *)
Lemma validate_studyguide_run (path : path) (s : state) (index_found : bool)
  (files : list PathLib.path) :
  path_exists os (path // "Pages") = Ok true →
  (path_exists os (path // "index.csv") = Ok true ∧ index_found = true
   ∨ path_exists os (path // "index.csv") = Ok false
     ∧ path_exists os (path // "Pages" // "index.csv") = Ok index_found) →
  path_glob os (path // "Pages") "*" = Ok files →
  validate_studyguide os path s
  = (State
       (Report
          (if index_found then status (report s) else "failed")
          (errors (report s)
           ++ (if index_found then [] else [missing_index_error path]))
          (warnings (report s)
           ++ (stray_warning
                 <$> filter (λ f, name f ≠ "index.csv"
                                  ∧ suffix f ∉ allowed_suffixes) files))
          (Stats
             (files_checked (stats (report s)) + length files)
             (valid_files (stats (report s))
              + length (filter (λ f, name f ≠ "index.csv"
                                     ∧ suffix f ∈ allowed_suffixes) files))
             (invalid_files (stats (report s)))))
       (stdout s),
     Ok tt).
Proof.
  intros Hpages Hindex Hglob. unfold validate_studyguide.
  run_validator. rewrite Hpages. simpl.
  destruct Hindex as [[-> ->] | [-> Hfallback]]; simpl.
  - rewrite Hglob. simpl. rewrite classify_run. simpl.
    by rewrite app_nil_r.
  - rewrite Hfallback. destruct index_found; simpl.
    + rewrite Hglob. simpl. rewrite classify_run. simpl.
      by rewrite app_nil_r.
    + rewrite Hglob. simpl. rewrite classify_run. simpl. done.
Qed.

(** C7: when the studyguide folder has no [Pages], the rule records one
    error and does nothing else: no other query is made, and the warnings
    and the statistics stay as they are.  When [Pages] exists, [index.csv]
    is looked for under the studyguide folder first; found there, no error
    is recorded and [Pages] is not asked for it; not found there, it is
    looked for under [Pages], and the missing-index error is recorded
    exactly when it is not there either.  The files of [Pages] add no
    error, whatever listing them gives. *)
Theorem studyguide_pages_and_index (path : PathLib.path) (s : state) :
  (path_exists os (path // "Pages") = Ok false →
   validate_studyguide os path s
   = (State (Report "failed"
               (errors (report s) ++ [missing_pages_error path])
               (warnings (report s)) (stats (report s)))
            (stdout s), Ok tt))
  ∧ (path_exists os (path // "Pages") = Ok true →
     let after := report (validate_studyguide os path s).1 in
     (path_exists os (path // "index.csv") = Ok true →
      errors after = errors (report s))
     ∧ (path_exists os (path // "index.csv") = Ok false →
        (path_exists os (path // "Pages" // "index.csv") = Ok true →
         errors after = errors (report s))
        ∧ (path_exists os (path // "Pages" // "index.csv") = Ok false →
           errors after = errors (report s) ++ [missing_index_error path]))).
Proof.
  split.
  - intros Hpages. unfold validate_studyguide. run_validator.
    by rewrite Hpages.
  - intros Hpages after. subst after. unfold validate_studyguide.
    run_validator. rewrite Hpages. simpl. split.
    + intros ->. simpl.
      destruct (path_glob os (path // "Pages") "*") as [files|e]; [|done].
      simpl. by rewrite classify_run.
    + intros ->. simpl. split; intros ->; simpl.
      * destruct (path_glob os (path // "Pages") "*") as [files|e]; [|done].
        simpl. by rewrite classify_run.
      * destruct (path_glob os (path // "Pages") "*") as [files|e]; [|done].
        simpl. by rewrite classify_run.
Qed.

(** C8: when [Pages] exists, the index lookup has returned and [Pages] is
    listed, the rule returns; files_checked grows by the number of files
    listed, [index.csv] included; valid_files grows by the number of files
    other than [index.csv] whose suffix is one of .csv, .pdf, .docx, .doc,
    .jpg, .png; every file other than [index.csv] with another suffix adds
    one warning, in the order of the listing, and no error; invalid_files
    stays as it is; the one error the rule may record is the missing
    index. *)
Theorem pages_files_counted (path : PathLib.path) (s : state)
  (index_found : bool) (files : list PathLib.path) :
  path_exists os (path // "Pages") = Ok true →
  (path_exists os (path // "index.csv") = Ok true ∧ index_found = true
   ∨ path_exists os (path // "index.csv") = Ok false
     ∧ path_exists os (path // "Pages" // "index.csv") = Ok index_found) →
  path_glob os (path // "Pages") "*" = Ok files →
  ∃ after,
    validate_studyguide os path s = (State after (stdout s), Ok tt)
    ∧ files_checked (stats after)
      = files_checked (stats (report s)) + length files
    ∧ valid_files (stats after)
      = valid_files (stats (report s))
        + length (filter (λ f, name f ≠ "index.csv"
                               ∧ suffix f ∈ [".csv"; ".pdf"; ".docx"; ".doc";
                                             ".jpg"; ".png"]) files)
    ∧ invalid_files (stats after) = invalid_files (stats (report s))
    ∧ warnings after
      = warnings (report s)
        ++ (stray_warning
              <$> filter (λ f, name f ≠ "index.csv"
                               ∧ suffix f ∉ [".csv"; ".pdf"; ".docx"; ".doc";
                                             ".jpg"; ".png"]) files)
    ∧ errors after
      = errors (report s)
        ++ (if index_found then [] else [missing_index_error path]).
Proof.
  intros Hpages Hindex Hglob.
  rewrite (validate_studyguide_run path s index_found files) by done.
  eexists. split; [done|]. by split_and!.
Qed.

End studyguide.

Section studyguide_example.
Import ValidateStructure PathLib.

(** A study guide with [Pages] and no index anywhere gets the
    missing-index error and no other. *)
Lemma studyguide_pages_and_index_witness :
  errors (report (validate_studyguide (tree_fs Example.store_without_index)
                    Example.studyguide (State initial_report [])).1)
  = ["[ERROR] Missing 'index.csv' map for studyguide pages (/app/public/Physics/t1/studyguide)"].
Proof.
  destruct (studyguide_pages_and_index
              (tree_fs Example.store_without_index) Example.studyguide
              (State initial_report [])) as [_ Hpages].
  destruct Hpages as [_ Hindex]; [reflexivity|].
  destruct Hindex as [_ Hneither]; [reflexivity|].
  apply Hneither. reflexivity.
Defined.

(** [Pages] with the index, a page and a stray text file: three files
    checked, one valid, one warning, no error. *)
Lemma pages_files_counted_witness :
  ∃ after,
    validate_studyguide (tree_fs Example.store) Example.studyguide
      (State initial_report [])
    = (State after [], Ok tt)
    ∧ stats after = Stats 3 1 0
    ∧ warnings after
      = ["[WARN] Stray or unknown file type: notes.txt (/app/public/Physics/t1/studyguide/Pages/notes.txt)"]
    ∧ errors after = [].
Proof.
  destruct (pages_files_counted (tree_fs Example.store) Example.studyguide
              (State initial_report []) true
              [Example.studyguide ++ ["Pages"; "index.csv"];
               Example.studyguide ++ ["Pages"; "Page1.pdf"];
               Example.studyguide ++ ["Pages"; "notes.txt"]])
    as (after & Hrun & Hchecked & Hvalid & Hinvalid & Hwarn & Herr).
  - reflexivity.
  - right. split; reflexivity.
  - reflexivity.
  - exists after. split; [exact Hrun|].
    destruct after as [st er wa [fc vf iv]]. simpl in *.
    subst. split_and!; reflexivity.
Defined.

End studyguide_example.

(** ** The examples of the specification *)

Section examples.
Import ConvertToCsv ValidateStructure PathLib.

(** Two Study_Content rows, one Formulas row and one Key_Terms row of
    topic t1 give four content rows in that order, the formula marked
    [formula] and the key term [key_term]; the order_index values play no
    part. *)
Example content_of_t1 :
  let study_content : list row :=
    [list_to_map [("topic_id", "t1"); ("content_id", "c1");
                  ("content_title", "Motion"); ("order_index", "9")];
     list_to_map [("topic_id", "t1"); ("content_id", "c2");
                  ("image_url", "motion.png"); ("order_index", "1")]] in
  let formulas : list row :=
    [list_to_map [("topic_id", "t1"); ("formula_id", "f1");
                  ("formula_text", "v = d / t"); ("order_index", "0")]] in
  let key_terms : list row :=
    [list_to_map [("topic_id", "t1"); ("term_id", "k1"); ("term", "speed")]] in
  map (λ '((topic_id, content_items) : string * list row),
         (topic_id, map (dict_to_list study_fieldnames) content_items))
      (study_by_topic study_content formulas key_terms)
  = [("t1",
      [["c1"; "text"; "Motion"; ""; ""; "9"];
       ["c2"; "text"; ""; ""; "motion.png"; "1"];
       ["f1"; "formula"; ""; "v = d / t"; ""; "0"];
       ["k1"; "key_term"; "speed"; ""; ""; ""]])].
Proof. vm_compute. reflexivity. Qed.

(** The folder of a content group comes from its topic id. *)
Example content_folder_of_phy_t1 :
  study_output_path Example.BASE_DIR "physics" "phy-t1_motion"
    [study_content_item (list_to_map [("topic_id", "phy-t1_motion");
                                      ("topic_name", "Motion")])]
  = ["app"; "public"; "studyguide"; "Physics"; "Phy_T1_Motion"; "content.csv"].
Proof. vm_compute. reflexivity. Qed.

(** A complete topic of one subject: status "success" and no error; the
    five other subjects and the stray file are warnings. *)
Example complete_topic_succeeds :
  let final := report (run (tree_fs Example.store) Example.PUBLIC_DIR).1 in
  status final = "success" ∧ errors final = []
  ∧ length (warnings final) = 6 ∧ stats final = Stats 3 1 0.
Proof. vm_compute. done. Qed.

(** A subject folder that is a regular file makes the walk raise when the
    folder is listed; the run still prints its report, with the crash as
    its one error. *)
Example crash_is_reported :
  run (tree_fs Example.store_with_file_subject) Example.PUBLIC_DIR
  = (let final :=
       Report "failed"
         ["[ERROR] Validation script crashed: [Errno 20] Not a directory: '/app/public/Math'"]
         ["[WARN] Stray or unknown file type: notes.txt (/app/public/Physics/t1/studyguide/Pages/notes.txt)";
          "[WARN] Missing subject folder: Chemistry";
          "[WARN] Missing subject folder: Biology"]
         (Stats 3 1 0) in
     (State final [final], Ok tt)).
Proof. vm_compute. reflexivity. Qed.

End examples.

(** * Further properties of the validator *)

Section validator_rules.
Import ValidateStructure PathLib.
Variable os : file_system.

Lemma record_error_at (msg : string) (p : PathLib.path) (r : report_t) :
  record_error msg (Some (str p)) r
  = Report "failed"
      (errors r ++ ["[ERROR] " +:+ msg +:+ " (" +:+ str p +:+ ")"])
      (warnings r) (stats r).
Proof. done. Qed.

(** X1: the questionnaire rule.  Without a [Quiz] directory it records one
    error and asks nothing more; with one, it records one warning when the
    directory lists no [*.csv] file and leaves the report as it is when it
    lists one.  The statistics are never touched. *)
Theorem questionnaire_quiz_rule (path : PathLib.path) (s : state) :
  (path_exists os (path // "Quiz") = Ok false →
   validate_questionnaire os path s
   = (State (Report "failed"
               (errors (report s)
                ++ ["[ERROR] Missing 'Quiz' directory (" +:+ str path +:+ ")"])
               (warnings (report s)) (stats (report s)))
            (stdout s), Ok tt))
  ∧ (path_exists os (path // "Quiz") = Ok true →
     (path_glob os (path // "Quiz") "*.csv" = Ok [] →
      validate_questionnaire os path s
      = (State (Report (status (report s)) (errors (report s))
                  (warnings (report s)
                   ++ ["[WARN] No quiz CSV files found ("
                       +:+ str (path // "Quiz") +:+ ")"])
                  (stats (report s)))
               (stdout s), Ok tt))
     ∧ (∀ csv csvs,
          path_glob os (path // "Quiz") "*.csv" = Ok (csv :: csvs) →
          validate_questionnaire os path s = (s, Ok tt))).
Proof.
  unfold validate_questionnaire. run_validator. split.
  - by intros ->.
  - intros ->. simpl. split.
    + by intros ->.
    + by intros csv csvs ->.
Qed.

(** The handout rule never changes the report or the output, whether
    [Pages] exists, is missing, or the query raises. *)
Lemma handout_rule_is_silent (path : PathLib.path) (s : state) :
  (validate_handout os path s).1 = s
  ∧ (∀ pages_exists, path_exists os (path // "Pages") = Ok pages_exists →
       validate_handout os path s = (s, Ok tt)).
Proof.
  unfold validate_handout. run_validator.
  destruct (path_exists os (path // "Pages")) as [[]|e]; simpl;
    (split; [done|]); by intros ? [= <-].
Qed.

(** X2: the three subfolders of a topic are checked one after the other,
    and an error of one does not stop the next.  With none of them there,
    the topic gets three errors, in the order studyguide, questionnaire,
    Handout; with a studyguide that has no [Pages], a questionnaire that
    has no [Quiz] and no Handout, it gets the three errors of these. *)
Theorem topic_checks_are_independent (topic_path : PathLib.path) (s : state) :
  let missing sub :=
    "[ERROR] Missing required subfolder '" +:+ sub +:+ "' in topic ("
    +:+ str topic_path +:+ ")" in
  ((∀ sub, sub ∈ REQUIRED_TOPIC_STRUCTURE →
           path_exists os (topic_path // sub) = Ok false) →
   validate_topic os topic_path s
   = (State (Report "failed"
               (errors (report s)
                ++ [missing "studyguide"; missing "questionnaire";
                    missing "Handout"])
               (warnings (report s)) (stats (report s)))
            (stdout s), Ok tt))
  ∧ (path_exists os (topic_path // "studyguide") = Ok true →
     path_exists os (topic_path // "studyguide" // "Pages") = Ok false →
     path_exists os (topic_path // "questionnaire") = Ok true →
     path_exists os (topic_path // "questionnaire" // "Quiz") = Ok false →
     path_exists os (topic_path // "Handout") = Ok false →
     validate_topic os topic_path s
     = (State (Report "failed"
                 (errors (report s)
                  ++ [missing_pages_error (topic_path // "studyguide");
                      "[ERROR] Missing 'Quiz' directory ("
                      +:+ str (topic_path // "questionnaire") +:+ ")";
                      missing "Handout"])
                 (warnings (report s)) (stats (report s)))
              (stdout s), Ok tt)).
Proof.
  intros missing. subst missing. split.
  - intros Hmissing. unfold validate_topic, REQUIRED_TOPIC_STRUCTURE in *.
    cbn [for_each]. run_validator.
    rewrite !Hmissing by (repeat constructor). simpl.
    rewrite !record_error_at. simpl. by rewrite <- !app_assoc.
  - intros Hsg Hpages Hq Hquiz Hh.
    unfold validate_topic, REQUIRED_TOPIC_STRUCTURE. cbn [for_each].
    unfold validate_studyguide, validate_questionnaire. run_validator.
    rewrite Hsg. simpl. rewrite Hpages. simpl.
    rewrite Hq. simpl. rewrite Hquiz. simpl. rewrite Hh. simpl.
    rewrite !record_error_at. simpl. by rewrite <- !app_assoc.
Qed.

End validator_rules.

Section validator_reports.
Import ValidateStructure PathLib.
Variable os : file_system.
Variable PUBLIC_DIR : path.

Lemma validate_studyguide_stats (path : PathLib.path) :
  holds (λ s, stats_ok (report s)) (validate_studyguide os path) (λ _, True).
Proof.
  intros s [Hinvalid Hvalid]. split; [|done].
  assert (∀ r out files,
    invalid_files (stats r) = 0 →
    valid_files (stats r) ≤ files_checked (stats r) →
    stats_ok (report
      (let (s', r0) :=
         fold_each files 0 classify_page
           (State (add_files_checked (length files) r) out) in
       match r0 with
       | Ok n => (State (add_valid_files n (report s')) (stdout s'), Ok ())
       | Raise e => (s', Raise e)
       end).1)) as Hfiles.
  { intros r out files Hi Hv. rewrite classify_run.
    unfold stats_ok. simpl. split; [done|].
    pose proof (length_filter
      (λ f, name f ≠ "index.csv" ∧ suffix f ∈ allowed_suffixes) files). lia. }
  unfold validate_studyguide. run_validator.
  destruct (path_exists os (path // "Pages")) as [[]|e];
    [|by split..].
  cbn [negb].
  destruct (path_exists os (path // "index.csv")) as [[]|e];
    cbn [negb]; [| |by split].
  - destruct (path_glob os (path // "Pages") "*") as [files|e];
      [by apply Hfiles | by split].
  - destruct (path_exists os (path // "Pages" // "index.csv")) as [[]|e];
      [| |by split].
    + destruct (path_glob os (path // "Pages") "*") as [files|e];
        [by apply Hfiles | by split].
    + destruct (path_glob os (path // "Pages") "*") as [files|e];
        [by apply Hfiles | by split].
Qed.

(** Like [validate_structure_holds], for a property that the studyguide
    rule keeps as a whole. *)
Lemma validate_structure_holds_rule (I : state → Prop) :
  (∀ msg p, holds I (log_error msg p) (λ _, True)) →
  (∀ msg p, holds I (log_warn msg p) (λ _, True)) →
  (∀ path, holds I (validate_studyguide os path) (λ _, True)) →
  holds I (validate_structure os PUBLIC_DIR) (λ _, True).
Proof.
  intros Herror Hwarn Hstudyguide.
  assert (∀ path, holds I (validate_questionnaire os path) (λ _, True))
    as Hquestionnaire.
  { intros path. unfold validate_questionnaire.
    cbv beta delta [mbind M_bind mret M_ret].
    eapply (holds_bind _ _ _ (λ _, True)); [eapply holds_true, holds_lift|].
    intros [] _; simpl; [|apply Herror].
    eapply (holds_bind _ _ _ (λ _, True)); [eapply holds_true, holds_lift|].
    intros [|csv csvs] _; [apply Hwarn | by apply holds_ret]. }
  assert (∀ path, holds I (validate_handout os path) (λ _, True)) as Hhandout.
  { intros path. unfold validate_handout.
    cbv beta delta [mbind M_bind mret M_ret].
    eapply (holds_bind _ _ _ (λ _, True)); [eapply holds_true, holds_lift|].
    intros [] _; by apply holds_ret. }
  assert (∀ topic, holds I (validate_topic os topic) (λ _, True)) as Htopic.
  { intros topic. unfold validate_topic.
    cbv beta delta [mbind M_bind mret M_ret].
    apply holds_for_each. intros sub _.
    eapply (holds_bind _ _ _ (λ _, True)); [eapply holds_true, holds_lift|].
    intros [] _; simpl; [|apply Herror].
    repeat case_bool_decide; [apply Hstudyguide | apply Hquestionnaire
                             | apply Hhandout | by apply holds_ret]. }
  unfold validate_structure. cbv beta delta [mbind M_bind mret M_ret].
  apply holds_for_each. intros subject _.
  eapply (holds_bind _ _ _ (λ _, True)); [eapply holds_true, holds_lift|].
  intros [] _; simpl; [|apply Hwarn].
  eapply (holds_bind _ _ _ (λ _, True)); [eapply holds_true, holds_lift|].
  intros entries _.
  eapply (holds_bind _ _ _ (λ _, True)).
  { apply holds_filter_m. intros t. eapply holds_true, holds_lift. }
  intros [|topic topics] _; [apply Hwarn|].
  apply holds_for_each. intros t _. apply Htopic.
Qed.

(** X3: in the report of every run no file is counted as invalid, and the
    files counted as valid are never more than the files checked. *)
Theorem final_stats_are_sound :
  let final := report (run os PUBLIC_DIR).1 in
  invalid_files (stats final) = 0
  ∧ valid_files (stats final) ≤ files_checked (stats final).
Proof.
  assert (holds (λ s, stats_ok (report s)) (main os PUBLIC_DIR) (λ _, True))
    as Hmain.
  { unfold main. cbv beta delta [mbind M_bind mret M_ret].
    eapply (holds_bind _ _ _ (λ _, True)).
    - apply holds_try_except.
      + apply validate_structure_holds_rule.
        * intros msg p. by apply holds_modify.
        * intros msg p. by apply holds_modify.
        * apply validate_studyguide_stats.
      + intros e. by apply holds_modify.
    - intros _ _. by apply holds_modify. }
  apply (Hmain (State initial_report [])). unfold stats_ok. simpl. lia.
Qed.

(** X4: the walk only adds to the report it is given, whether it returns
    or raises: the errors and the warnings it was given stay at the front
    of the lists, in their order; no counter gets lower; a failed report
    stays failed; nothing is printed. *)
Theorem walk_only_adds (s : state) :
  let after := (validate_structure os PUBLIC_DIR s).1 in
  errors (report s) `prefix_of` errors (report after)
  ∧ warnings (report s) `prefix_of` warnings (report after)
  ∧ files_checked (stats (report s)) ≤ files_checked (stats (report after))
  ∧ valid_files (stats (report s)) ≤ valid_files (stats (report after))
  ∧ (status (report s) = "failed" → status (report after) = "failed")
  ∧ stdout after = stdout s.
Proof.
  intros after. subst after.
  assert (holds (λ s', continues (report s) (report s'))
                (validate_structure os PUBLIC_DIR) (λ _, True)) as Hwalk.
  { apply validate_structure_holds.
    - intros f [-> | ->] msg p; apply holds_modify;
        intros s' (He & Hw & Hc & Hv & Hs); unfold continues; simpl;
        split_and!; try done; by apply prefix_app_r.
    - intros f [-> | ->] n; apply holds_modify;
        intros s' (He & Hw & Hc & Hv & Hs); unfold continues; simpl;
        split_and!; try done; lia. }
  destruct (Hwalk s) as [(He & Hw & Hc & Hv & Hs) _].
  { unfold continues. by split_and!. }
  split_and!; try done.
  by destruct (stdout_kept os PUBLIC_DIR (stdout s) s eq_refl) as [-> _].
Qed.

(** X5: a missing subject folder is a warning and never an error.  When
    none of the six required subject folders exists, the run prints a
    report with status "success", no error, the six warnings in the order
    of the required subjects, and zero counters. *)
Theorem missing_subjects_only_warn :
  (∀ subject, subject ∈ REQUIRED_SUBJECTS →
              path_exists os (PUBLIC_DIR // subject) = Ok false) →
  let final :=
    Report "success" []
      ((λ subject, "[WARN] Missing subject folder: " +:+ subject)
         <$> REQUIRED_SUBJECTS)
      (Stats 0 0 0) in
  run os PUBLIC_DIR = (State final [final], Ok tt).
Proof.
  intros Hmissing final. subst final.
  unfold run, main, validate_structure, REQUIRED_SUBJECTS in *.
  cbn [for_each]. run_validator.
  rewrite !Hmissing by (repeat constructor). done.
Qed.

End validator_reports.

Section validator_reports_example.
Import ValidateStructure PathLib.

(** An empty content root: six warnings and status "success". *)
Lemma missing_subjects_only_warn_witness :
  status (report (run (tree_fs []) Example.PUBLIC_DIR).1) = "success"
  ∧ errors (report (run (tree_fs []) Example.PUBLIC_DIR).1) = []
  ∧ length (warnings (report (run (tree_fs []) Example.PUBLIC_DIR).1)) = 6.
Proof.
  rewrite (missing_subjects_only_warn (tree_fs []) Example.PUBLIC_DIR).
  - done.
  - intros subject _. reflexivity.
Defined.

End validator_reports_example.

(** * Further properties of the conversion *)

Section write_csv_more.
Import ConvertToCsv PathLib.
Variable BASE_DIR : path.

(** X7: [write_csv] touches nothing but its own path and the directories
    above it: whatever it is given and whether it returns or raises, a
    file at another path keeps its content and a directory stays a
    directory. *)
Theorem write_csv_spares_the_rest (file_path : path) (data : list row)
  (fieldnames : list string) (w : world) (q : path) :
  let after := (write_csv BASE_DIR file_path data fieldnames w).1 in
  (∀ content, q ≠ file_path → fs w !! q = Some (File content) →
              fs after !! q = Some (File content))
  ∧ (fs w !! q = Some Directory → fs after !! q = Some Directory).
Proof.
  intros after. subst after.
  destruct (decide (data = [])) as [->|Hdata]; [done|].
  destruct (List.find (λ q, is_file (fs w !! q)) (prefixes (parent file_path)))
    as [blocking|] eqn:Hfind.
  - by destruct (write_csv_blocked BASE_DIR file_path data fieldnames w
                   blocking Hdata Hfind) as [e ->].
  - destruct (write_csv_run BASE_DIR file_path data fieldnames w Hdata Hfind)
      as [lines ->]. simpl. rewrite written_lookup.
    apply find_none_Forall in Hfind.
    split.
    + intros content Hne Hq.
      destruct (decide (q ∈ prefixes (parent file_path))) as [Hin|_].
      { rewrite Forall_forall in Hfind. specialize (Hfind q Hin).
        by rewrite Hq in Hfind. }
      by rewrite decide_False.
    + intros Hq. destruct (decide (q ∈ _)); [done|].
      destruct (decide (q = file_path)) as [->|]; [|done]. by rewrite Hq.
Qed.

(** X8: how [write_csv] fails.  A regular file where a directory is needed
    makes it raise, before anything is written or logged: the exception of
    [mkdir] is not caught.  A directory in the place of the file makes it
    return after logging an error: the directories above are made and the
    directory stays. *)
Theorem write_csv_failures (file_path : path) (data : list row)
  (fieldnames : list string) (w : world) :
  data ≠ [] →
  (∀ q, q ∈ prefixes (parent file_path) → is_file (fs w !! q) = true →
        ∃ e, write_csv BASE_DIR file_path data fieldnames w = (w, Raise e))
  ∧ (Forall (λ q, is_file (fs w !! q) = false) (prefixes (parent file_path)) →
     fs w !! file_path = Some Directory →
     write_csv BASE_DIR file_path data fieldnames w
     = (World (console w
               ++ ["  [ERROR] Error writing " +:+ str file_path
                   +:+ ": [Errno 21] Is a directory: '" +:+ str file_path
                   +:+ "'"])
              (make_directories (prefixes (parent file_path)) (fs w)),
        Ok tt)).
Proof.
  intros Hdata. split.
  - intros q Hq Hfile.
    destruct (List.find (λ q, is_file (fs w !! q)) (prefixes (parent file_path)))
      as [blocking|] eqn:Hfind.
    + by apply (write_csv_blocked BASE_DIR file_path data fieldnames w blocking).
    + apply find_none_Forall in Hfind. rewrite Forall_forall in Hfind.
      rewrite (Hfind q Hq) in Hfile. done.
  - intros Hfree Hdir. apply find_none_Forall in Hfree.
    unfold write_csv. destruct data as [|r0 data0]; [done|].
    unfold mkdir_parents, open_w. run_monad. rewrite Hfree. simpl.
    rewrite lookup_make_directories.
    rewrite decide_False by apply not_in_parent_prefixes.
    by rewrite Hdir.
Qed.

(** A write that keeps the files of [expected]. *)
Lemma holds_write_csv (expected : path → list (list string) → Prop)
  (w0 : world) (file_path : path) (data : list row)
  (fieldnames : list string) :
  (data ≠ [] → expected file_path (csv_table fieldnames data)) →
  holds (files_from expected w0)
        (write_csv BASE_DIR file_path data fieldnames) (λ _, True).
Proof.
  intros Hexp w Hw. split; [|done]. intros q content Hq.
  apply write_csv_effect in Hq as [Hq|(-> & Hdata & ->)]; [by apply Hw|].
  right. by apply Hexp.
Qed.

Lemma files_from_console expected w0 w c :
  files_from expected w0 w → files_from expected w0 (World c (fs w)).
Proof. done. Qed.

Lemma files_from_weaken (expected expected' : path → list (list string) → Prop)
  w0 w :
  (∀ q content, expected q content → expected' q content) →
  files_from expected w0 w → files_from expected' w0 w.
Proof.
  intros Himp Hw q content Hq. destruct (Hw q content Hq) as [?|?];
    [by left | right; by apply Himp].
Qed.

End write_csv_more.

Section write_csv_more_example.
Import ConvertToCsv PathLib.

(** A regular file named [public] blocks every write below it. *)
Lemma write_csv_failures_witness :
  let w := World [] {[ ["app"; "public"] := File [["x"]] ]} in
  ∃ e, write_csv ["app"] ["app"; "public"; "questionnaire"; "q.csv"]
         [∅] ["question_id"] w = (w, Raise e).
Proof.
  intros w.
  destruct (write_csv_failures ["app"]
              ["app"; "public"; "questionnaire"; "q.csv"] [∅]
              ["question_id"] w) as [Hblocked _]; [done|].
  apply (Hblocked ["app"; "public"]); [|reflexivity].
  vm_compute. do 1 right. left.
Defined.

End write_csv_more_example.

Section passes.
Import ConvertToCsv PathLib.
Variable BASE_DIR : path.
Variable load_workbook : path → result workbook.
Variable subject_files : list path.

Lemma files_from_step (expected expected' : path → list (list string) → Prop)
  {A} (m : M world A) (w0 : world) :
  (∀ q content, expected q content → expected' q content) →
  (∀ w1, holds (files_from expected w1) m (λ _, True)) →
  holds (files_from expected' w0) m (λ _, True).
Proof.
  intros Himp Hm w Hw. split; [|done]. intros q content Hq.
  destruct (Hm w w) as [Hstep _]; [by left|].
  destruct (Hstep q content Hq) as [Hold|Hnew]; [by apply Hw|].
  right. by apply Himp.
Qed.

Lemma create_master_indices_files (subjects : gmap string string)
  (mapping : odict (odict string)) (w0 : world) :
  holds (files_from (master_index_file BASE_DIR (index_rows subjects mapping))
                    w0)
        (create_master_indices BASE_DIR subjects mapping) (λ _, True).
Proof.
  unfold create_master_indices. cbv beta zeta delta [mbind M_bind].
  eapply (holds_bind _ _ _ (λ _, True)).
  { by apply holds_print. }
  intros _ _. eapply (holds_bind _ _ _ (λ _, True)).
  { apply holds_write_csv. intros Hdata. split_and!; [|done..].
    apply list_elem_of_here. }
  intros _ _. eapply (holds_bind _ _ _ (λ _, True)).
  { apply holds_write_csv. intros Hdata. split_and!; [|done..].
    apply list_elem_of_further, list_elem_of_here. }
  intros _ _.
  apply holds_write_csv. intros Hdata. split_and!; [|done..].
  do 2 apply list_elem_of_further. apply list_elem_of_here.
Qed.

Lemma convert_study_content_files (w0 : world) :
  holds (files_from (content_file BASE_DIR load_workbook subject_files) w0)
        (convert_study_content BASE_DIR load_workbook subject_files)
        (λ _, True).
Proof.
  unfold convert_study_content. cbv beta zeta delta [mbind M_bind].
  eapply (holds_bind _ _ _ (λ _, True)); [by apply holds_print|].
  intros _ _. apply holds_for_each. intros subject_file Hfile.
  eapply (holds_bind _ _ _ (λ _, True)); [by apply holds_print|].
  intros _ _. eapply holds_bind.
  { by apply holds_read_excel_sheet. }
  intros study_content ->. eapply holds_bind.
  { by apply holds_read_excel_sheet. }
  intros formulas ->. eapply holds_bind.
  { by apply holds_read_excel_sheet. }
  intros key_terms ->.
  apply holds_for_each. intros [topic_id content_items] Hgroup.
  apply holds_write_csv. intros _.
  by exists subject_file, topic_id, content_items.
Qed.

(** X9: every file [create_master_indices] creates or changes is the
    master index at one of the three output roots, and holds the same
    table at each: the header subject_key, subject_name, topic_id,
    topic_name, topic_folder and one row of these five values per index
    row.  With no index row, it creates or changes no file. *)
Theorem master_index_copies (subjects : gmap string string)
  (mapping : odict (odict string)) (w : world) (q : path)
  (content : list (list string)) :
  fs (create_master_indices BASE_DIR subjects mapping w).1 !! q
  = Some (File content) →
  fs w !! q ≠ Some (File content) →
  q ∈ [QUESTIONNAIRE_DIR BASE_DIR // "_master_index.csv";
       STUDYGUIDE_DIR BASE_DIR // "_master_index.csv";
       HANDOUT_DIR BASE_DIR // "_master_index.csv"]
  ∧ index_rows subjects mapping ≠ []
  ∧ content
    = ["subject_key"; "subject_name"; "topic_id"; "topic_name"; "topic_folder"]
      :: (dict_to_list index_fieldnames <$> index_rows subjects mapping)
  ∧ ∀ subject_key subject_name topic_id topic_name,
      dict_to_list index_fieldnames
        (index_row subject_key subject_name topic_id topic_name)
      = [subject_key; subject_name; topic_id; topic_name;
         replace_space_apostrophe topic_name].
Proof.
  intros Hafter Hbefore.
  destruct (create_master_indices_files subjects mapping w w) as [Hfiles _].
  { intros ???. by left. }
  apply Hfiles in Hafter as [?|(Hq & Hdata & ->)]; [done|].
  by split_and!.
Qed.

(** X10: every file the study-content pass creates or changes is the
    table of one topic group of one subject workbook: the header
    content_id, content_type, title, content, url, order_index and one row
    of six fields per item of the group, in the order of the group.  The
    row holds all there is in the item: the item is the record that pairs
    the six names with the six fields. *)
Theorem content_files_projection (w : world) (q : path)
  (content : list (list string)) :
  fs (convert_study_content BASE_DIR load_workbook subject_files w).1 !! q
  = Some (File content) →
  fs w !! q ≠ Some (File content) →
  ∃ subject_file topic_id content_items,
    subject_file ∈ subject_files
    ∧ topic_id ≠ ""
    ∧ content_items
      = concatenation_order
          (sheet_rows load_workbook subject_file "Study_Content")
          (sheet_rows load_workbook subject_file "Formulas")
          (sheet_rows load_workbook subject_file "Key_Terms") topic_id
    ∧ q = study_output_path BASE_DIR (stem subject_file) topic_id content_items
    ∧ content
      = ["content_id"; "content_type"; "title"; "content"; "url"; "order_index"]
        :: (dict_to_list study_fieldnames <$> content_items)
    ∧ Forall (λ fields, length fields = 6) content
    ∧ Forall (λ item : row,
                list_to_map (zip study_fieldnames
                                 (dict_to_list study_fieldnames item))
                = item) content_items.
Proof.
  intros Hafter Hbefore.
  destruct (convert_study_content_files w w) as [Hfiles _].
  { intros ???. by left. }
  apply Hfiles in Hafter as [?|Hfile]; [done|].
  destruct Hfile as (subject_file & topic_id & items & Hsf & Hgroup & -> & ->).
  apply study_by_topic_elem in Hgroup as (Htid & _ & Hitems).
  exists subject_file, topic_id, items. split_and!; try done.
  - apply Forall_cons. split; [done|].
    apply Forall_fmap, Forall_forall. by intros r _.
  - rewrite Hitems. unfold concatenation_order.
    rewrite !Forall_app, !Forall_fmap.
    split_and!; apply Forall_forall; intros r _; reflexivity.
Qed.

Lemma holds_get_subject_topic_mapping (I : world → Prop) :
  (∀ w c, I w → I (World c (fs w))) →
  holds I (get_subject_topic_mapping BASE_DIR load_workbook)
    (λ v, v = (subjects_of
                 (sheet_rows load_workbook
                    (DATA_DIR BASE_DIR // "StudyHub_Master.xlsx") "Subjects"),
               foldl mapping_step []
                 (sheet_rows load_workbook
                    (DATA_DIR BASE_DIR // "StudyHub_Master.xlsx") "Topics"))).
Proof.
  intros HI w Hw.
  destruct (get_subject_topic_mapping_returns BASE_DIR load_workbook w)
    as [lines ->]. simpl. split; [by apply HI|]. by intros v [= <-].
Qed.

(** X11: the whole conversion creates or changes no file but master
    indices, quiz files and content files: each such file is the master
    index of the master workbook's rows at one of the three roots, or the
    table of a quiz group, or the table of a content group of one of the
    subject workbooks - whether the run completes or stops on an
    exception. *)
Theorem pipeline_files (w : world) (q : path) (content : list (list string)) :
  fs (main BASE_DIR load_workbook subject_files w).1 !! q
  = Some (File content) →
  fs w !! q ≠ Some (File content) →
  pipeline_file BASE_DIR load_workbook subject_files q content.
Proof.
  intros Hafter Hbefore.
  assert (holds (files_from
                   (pipeline_file BASE_DIR load_workbook subject_files) w)
                (main BASE_DIR load_workbook subject_files) (λ _, True))
    as Hmain.
  { unfold main. cbv beta zeta delta [mbind M_bind].
    do 3 (eapply (holds_bind _ _ _ (λ _, True));
          [by apply holds_print | intros _ _]).
    eapply holds_bind; [by apply holds_get_subject_topic_mapping|].
    intros v ->. cbv beta iota.
    eapply (holds_bind _ _ _ (λ _, True));
      [by apply holds_print | intros _ _].
    eapply (holds_bind _ _ _ (λ _, True)).
    { eapply files_from_step; [|intros w1; apply create_master_indices_files].
      intros ???. by left. }
    intros _ _. eapply (holds_bind _ _ _ (λ _, True)).
    { eapply files_from_step;
        [|intros w1; apply (convert_quiz_questions_written
                              BASE_DIR load_workbook subject_files w1)].
      intros ???. right. by left. }
    intros _ _. eapply (holds_bind _ _ _ (λ _, True)).
    { eapply files_from_step; [|intros w1; apply convert_study_content_files].
      intros ???. right. by right. }
    intros _ _.
    do 4 (eapply (holds_bind _ _ _ (λ _, True));
          [by apply holds_print | intros _ _]).
    by apply holds_print. }
  destruct (Hmain w) as [Hfiles _]; [intros ???; by left|].
  by apply Hfiles in Hafter as [?|?].
Qed.

End passes.

Section passes_example.
Import ConvertToCsv PathLib.

(** The three copies of the index of one topic. *)
Lemma master_index_copies_witness :
  let subjects : gmap string string := {[ "physics" := "Physics" ]} in
  let mapping : odict (odict string) :=
    [("physics", [("phy-t1", "Newton's Laws")])] in
  ExampleStore.master_index_csv
  ∈ [QUESTIONNAIRE_DIR ["app"] // "_master_index.csv";
     STUDYGUIDE_DIR ["app"] // "_master_index.csv";
     HANDOUT_DIR ["app"] // "_master_index.csv"]
  ∧ index_rows subjects mapping ≠ []
  ∧ [["subject_key"; "subject_name"; "topic_id"; "topic_name"; "topic_folder"];
     ["physics"; "Physics"; "phy-t1"; "Newton's Laws"; "Newtons_Laws"]]
    = ["subject_key"; "subject_name"; "topic_id"; "topic_name"; "topic_folder"]
      :: (dict_to_list index_fieldnames <$> index_rows subjects mapping)
  ∧ ∀ subject_key subject_name topic_id topic_name,
      dict_to_list index_fieldnames
        (index_row subject_key subject_name topic_id topic_name)
      = [subject_key; subject_name; topic_id; topic_name;
         replace_space_apostrophe topic_name].
Proof.
  intros subjects mapping.
  apply (master_index_copies ["app"] subjects mapping Example.empty_world).
  - vm_compute. reflexivity.
  - vm_compute. discriminate.
Defined.

(** The content file of the example workbook: the study-content row, then
    the formula; the blank row of the sheet and the missing Key_Terms
    sheet add nothing. *)
Lemma content_files_projection_witness :
  ∃ subject_file topic_id content_items,
    subject_file ∈ [Example.physics_xlsx]
    ∧ topic_id ≠ ""
    ∧ content_items
      = concatenation_order
          (sheet_rows ExampleStore.load_workbook subject_file "Study_Content")
          (sheet_rows ExampleStore.load_workbook subject_file "Formulas")
          (sheet_rows ExampleStore.load_workbook subject_file "Key_Terms")
          topic_id
    ∧ ExampleStore.content_csv
      = study_output_path ["app"] (stem subject_file) topic_id content_items
    ∧ [["content_id"; "content_type"; "title"; "content"; "url"; "order_index"];
       ["c1"; "text"; "Force"; "A push or a pull"; ""; ""];
       ["f1"; "formula"; ""; "F = m a"; ""; ""]]
      = ["content_id"; "content_type"; "title"; "content"; "url"; "order_index"]
        :: (dict_to_list study_fieldnames <$> content_items)
    ∧ Forall (λ fields, length fields = 6)
        [["content_id"; "content_type"; "title"; "content"; "url"; "order_index"];
         ["c1"; "text"; "Force"; "A push or a pull"; ""; ""];
         ["f1"; "formula"; ""; "F = m a"; ""; ""]]
    ∧ Forall (λ item : row,
                list_to_map (zip study_fieldnames
                                 (dict_to_list study_fieldnames item))
                = item) content_items.
Proof.
  apply (content_files_projection ["app"] ExampleStore.load_workbook
           [Example.physics_xlsx] Example.empty_world).
  - vm_compute. reflexivity.
  - vm_compute. discriminate.
Defined.

(** The whole conversion on the example store accounts for the index it
    writes under the handout root. *)
Lemma pipeline_files_witness :
  pipeline_file ["app"] ExampleStore.load_workbook [Example.physics_xlsx]
    ExampleStore.master_index_csv
    [["subject_key"; "subject_name"; "topic_id"; "topic_name"; "topic_folder"];
     ["physics"; "Physics"; "phy-t1"; "Newton's Laws"; "Newtons_Laws"]].
Proof.
  apply (pipeline_files ["app"] ExampleStore.load_workbook
           [Example.physics_xlsx] Example.empty_world).
  - vm_compute. reflexivity.
  - vm_compute. discriminate.
Defined.

End passes_example.

(** ** The records of a sheet *)

Section sheet_records.
Import ConvertToCsv PathLib.

Lemma row_dict_snoc (headers : list string) (values : list cell) (v : cell) :
  row_dict headers (values ++ [v])
  = match headers !! length values with
    | Some h => if Py.truthy h
                then <[h := clean_cell_value v]> (row_dict headers values)
                else row_dict headers values
    | None => row_dict headers values
    end.
Proof.
  unfold row_dict. rewrite imap_app, foldl_app. simpl.
  by rewrite Nat.add_0_r.
Qed.

Lemma truthy_true (s : string) : Py.truthy s = true ↔ s ≠ "".
Proof. by destruct s. Qed.

Lemma row_dict_lookup_iff (headers : list string) (values : list cell)
  (key value : string) :
  row_dict headers values !! key = Some value
  ↔ key ≠ ""
    ∧ ∃ i v, headers !! i = Some key ∧ values !! i = Some v
             ∧ value = clean_cell_value v
             ∧ ∀ j v', i < j → values !! j = Some v' →
                       headers !! j ≠ Some key.
Proof.
  induction values as [|v0 values IH] using rev_ind.
  { unfold row_dict. simpl. rewrite lookup_empty.
    split; [done|]. by intros (_ & i & v & _ & ? & _). }
  rewrite row_dict_snoc.
  assert (∀ i v, i < length values →
                 ((values ++ [v0]) !! i = Some v ↔ values !! i = Some v))
    as Hold.
  { intros i v Hi. by rewrite lookup_app_l. }
  assert ((values ++ [v0]) !! length values = Some v0) as Hlast.
  { rewrite lookup_app_r by lia. by rewrite Nat.sub_diag. }
  assert (∀ i v, (values ++ [v0]) !! i = Some v → i ≤ length values)
    as Hbound.
  { intros i v Hi. apply lookup_lt_Some in Hi.
    rewrite length_app in Hi. simpl in Hi. lia. }
  (* the last column gives the key *)
  destruct (decide (headers !! length values = Some key ∧ key ≠ ""))
    as [[Hh Hk]|Hnot].
  - rewrite Hh. apply truthy_true in Hk as Htruthy. rewrite Htruthy.
    rewrite lookup_insert_eq. split.
    + intros [= <-]. split; [done|].
      exists (length values), v0. split_and!; try done.
      intros j v' Hj Hv'. apply Hbound in Hv'. lia.
    + intros (_ & i & v & Hi & Hv & -> & Hlater).
      destruct (decide (i = length values)) as [->|Hne].
      * rewrite Hlast in Hv. by simplify_eq.
      * apply Hbound in Hv as Hle.
        destruct (Hlater (length values) v0); [lia | done | done].
  - (* the last column does not give the key *)
    assert (match headers !! length values with
            | Some h => if Py.truthy h
                        then <[h := clean_cell_value v0]>
                               (row_dict headers values)
                        else row_dict headers values
            | None => row_dict headers values
            end !! key = Some value
            ↔ row_dict headers values !! key = Some value) as ->.
    { destruct (headers !! length values) as [h|] eqn:Hh; [|done].
      destruct (Py.truthy h) eqn:Htruthy; [|done].
      rewrite lookup_insert_ne; [done|].
      intros ->. apply Hnot. split; [done|]. by apply truthy_true. }
    rewrite IH. clear IH. split.
    + intros (Hk & i & v & Hi & Hv & -> & Hlater). split; [done|].
      apply lookup_lt_Some in Hv as Hlt.
      exists i, v. split_and!; try done; [by apply Hold|].
      intros j v' Hj Hv'.
      destruct (decide (j = length values)) as [->|Hne].
      * intros Hkey. apply Hnot. by split.
      * apply Hbound in Hv' as Hle. apply (Hlater j v'); [done|].
        apply Hold; [lia | done].
    + intros (Hk & i & v & Hi & Hv & -> & Hlater). split; [done|].
      destruct (decide (i = length values)) as [->|Hne].
      { destruct Hnot. by split. }
      apply Hbound in Hv as Hle.
      exists i, v. split_and!; try done; [apply Hold; [lia | done]|].
      intros j v' Hj Hv'. apply (Hlater j v'); [done|].
      apply lookup_lt_Some in Hv' as Hlt. apply Hold; [lia | done].
Qed.

(** X12: the record of a data row.  A field is in the record exactly when
    its name is not empty and is the header of a column the row has a cell
    in; its value is then the cleaned cell of the last such column, so that
    of two columns with one header the later one wins, headers without a
    cell and cells without a header are left out, and a column with an
    empty header is dropped. *)
Theorem row_dict_lookup (headers : list string) (values : list cell)
  (key value : string) :
  row_dict headers values !! key = Some value
  ↔ key ≠ ""
    ∧ ∃ i v, headers !! i = Some key ∧ values !! i = Some v
             ∧ value = clean_cell_value v
             ∧ ∀ j v', i < j → values !! j = Some v' →
                       headers !! j ≠ Some key.
Proof. apply row_dict_lookup_iff. Qed.

Lemma clean_cell_value_not_None (c : cell) : clean_cell_value c ≠ "None".
Proof.
  unfold clean_cell_value. destruct c as [text|]; [|done].
  by case_bool_decide.
Qed.

Lemma any_value_true (d : row) :
  any_value d = true ↔ ∃ key value, d !! key = Some value ∧ value ≠ "".
Proof.
  unfold any_value. rewrite existsb_exists. split.
  - intros ([key value] & Hin & Htruthy).
    apply list_elem_of_In, elem_of_map_to_list in Hin.
    exists key, value. split; [done|]. by apply truthy_true.
  - intros (key & value & Hd & Hne). exists (key, value). split.
    + by apply list_elem_of_In, elem_of_map_to_list.
    + by apply truthy_true.
Qed.

(** X13: every record [read_excel_sheet] returns has a field with a
    non-empty value, has no field under the empty name, and has no value
    that is the text None; every field of it is named by a header of the
    sheet. *)
Theorem sheet_records_are_clean
  (load_workbook : path → result workbook) (file_path : path)
  (sheet_name : string) (w : world) (data : list row) :
  (read_excel_sheet load_workbook file_path sheet_name w).2 = Ok data →
  Forall (λ d : row,
            (∃ key value, d !! key = Some value ∧ value ≠ "")
            ∧ d !! "" = None
            ∧ (∀ key value, d !! key = Some value → value ≠ "None")
            ∧ (∀ key, is_Some (d !! key) →
                 ∃ wb ws, load_workbook file_path = Ok wb
                          ∧ od_get sheet_name wb = Some ws
                          ∧ key ∈ clean_cell_value <$> hd [] ws))
         data.
Proof.
  unfold read_excel_sheet. run_monad.
  destruct (load_workbook file_path) as [wb|e] eqn:Hload; simpl.
  2:{ intros [= <-]. constructor. }
  destruct (bool_decide (sheet_name ∈ wb.*1)); simpl.
  2:{ intros [= <-]. constructor. }
  unfold wb_getitem. destruct (od_get sheet_name wb) as [ws|] eqn:Hws; simpl.
  2:{ intros [= <-]. constructor. }
  intros [= <-]. rewrite kept_rows_filter. simpl.
  apply Forall_forall. intros d Hd.
  apply list_elem_of_filter in Hd as [Hany Hd].
  apply list_elem_of_fmap in Hd as (values & -> & _).
  split_and!.
  - by apply any_value_true.
  - destruct (row_dict _ values !! "") eqn:Hempty; [|done].
    by apply row_dict_lookup_iff in Hempty as [? _].
  - intros key value Hkey.
    apply row_dict_lookup_iff in Hkey as (_ & i & v & _ & _ & -> & _).
    apply clean_cell_value_not_None.
  - intros key [value Hkey].
    apply row_dict_lookup_iff in Hkey as (_ & i & v & Hi & _).
    exists wb, ws. split_and!; try done.
    by eapply list_elem_of_lookup_2.
Qed.

End sheet_records.

Section sheet_records_example.
Import ConvertToCsv PathLib.

(** Two columns named [a]: the later cell is the value; the cell under the
    empty header and the cell beyond the headers are left out. *)
Lemma row_dict_lookup_witness :
  row_dict ["a"; ""; "a"] [Some "1"; Some "2"; Some " 3 "; Some "4"] !! "a"
  = Some "3".
Proof.
  apply (row_dict_lookup ["a"; ""; "a"]
           [Some "1"; Some "2"; Some " 3 "; Some "4"] "a" "3").
  split; [done|]. exists 2, (Some " 3 "). split_and!; try done.
  intros j v' Hj Hv'. destruct j as [|[|[|[|j]]]]; try lia; done.
Defined.

(** The records of the Study_Content sheet of the example workbook. *)
Lemma sheet_records_are_clean_witness :
  Forall (λ d : row,
            (∃ key value, d !! key = Some value ∧ value ≠ "")
            ∧ d !! "" = None
            ∧ (∀ key value, d !! key = Some value → value ≠ "None")
            ∧ (∀ key, is_Some (d !! key) →
                 ∃ wb ws, ExampleStore.load_workbook Example.physics_xlsx
                          = Ok wb
                          ∧ od_get "Study_Content" wb = Some ws
                          ∧ key ∈ clean_cell_value <$> hd [] ws))
         [list_to_map [("content_id", "c1"); ("topic_id", "phy-t1");
                       ("content_title", "Force");
                       ("content_text", "A push or a pull")]].
Proof.
  apply (sheet_records_are_clean ExampleStore.load_workbook
           Example.physics_xlsx "Study_Content" Example.empty_world).
  vm_compute. reflexivity.
Defined.

End sheet_records_example.

(** ** Cleaning a cell *)

Section clean_cell.
Import ConvertToCsv.

Lemma append_cons (c : ascii) (a b : string) :
  String c a +:+ b = String c (a +:+ b).
Proof. done. Qed.

Lemma append_nil_l (s : string) : "" +:+ s = s.
Proof. done. Qed.

Lemma append_nil_r (s : string) : s +:+ "" = s.
Proof.
  induction s as [|c s IH]; [done|]. by rewrite append_cons, IH.
Qed.

Lemma append_assoc (a b c : string) : (a +:+ b) +:+ c = a +:+ (b +:+ c).
Proof.
  induction a as [|x a IH]; [done|]. by rewrite !append_cons, IH.
Qed.

Lemma rev_app_rev_app (a b c : string) :
  String.rev_app (String.rev_app a b) c = String.rev_app b (a +:+ c).
Proof.
  revert b c. induction a as [|x a IH]; intros b c; [done|].
  cbn [String.rev_app]. by rewrite IH, append_cons.
Qed.

Lemma rev_involutive (s : string) : String.rev (String.rev s) = s.
Proof.
  unfold String.rev. rewrite rev_app_rev_app. cbn [String.rev_app].
  apply append_nil_r.
Qed.

Lemma rev_app_append (a b : string) :
  String.rev_app a b = String.rev a +:+ b.
Proof.
  unfold String.rev. revert b.
  induction a as [|x a IH]; intros b; [done|].
  cbn [String.rev_app]. rewrite IH, (IH (String x "")).
  by rewrite append_assoc, append_cons, append_nil_l.
Qed.

Lemma rev_append (a b : string) :
  String.rev (a +:+ b) = String.rev b +:+ String.rev a.
Proof.
  assert (∀ a b z, String.rev_app (a +:+ b) z
                   = String.rev_app b (String.rev_app a z)) as Hgen.
  { clear. induction a as [|x a IH]; intros b z; [done|].
    rewrite append_cons. cbn [String.rev_app]. apply IH. }
  unfold String.rev at 1. rewrite Hgen. apply rev_app_append.
Qed.

Lemma lstrip_no_space (s : string) : starts_with_space (Py.lstrip s) = false.
Proof.
  induction s as [|c s IH]; [done|]. simpl.
  destruct (Py.isspace c) eqn:Hc; [done|]. simpl. done.
Qed.

Lemma lstrip_fixed (s : string) :
  starts_with_space s = false → Py.lstrip s = s.
Proof. destruct s as [|c s]; [done|]. simpl. by intros ->. Qed.

Lemma lstrip_keeps_last (u : string) (c : ascii) :
  Py.isspace c = false →
  ∃ u', Py.lstrip (u +:+ String c "") = u' +:+ String c "".
Proof.
  intros Hc. induction u as [|x u IH].
  - rewrite append_nil_l. cbn [Py.lstrip]. rewrite Hc. by exists "".
  - rewrite append_cons. cbn [Py.lstrip].
    destruct (Py.isspace x); [done|]. exists (String x u).
    by rewrite append_cons.
Qed.

Lemma rstrip_no_space (s : string) : ends_with_space (Py.rstrip s) = false.
Proof.
  unfold ends_with_space, Py.rstrip. rewrite rev_involutive.
  apply lstrip_no_space.
Qed.

Lemma rstrip_keeps_start (s : string) :
  starts_with_space s = false → starts_with_space (Py.rstrip s) = false.
Proof.
  destruct s as [|c s]; [done|]. simpl. intros Hc.
  unfold Py.rstrip.
  assert (String.rev (String c s) = String.rev s +:+ String c "") as ->.
  { unfold String.rev at 1. cbn [String.rev_app]. apply rev_app_append. }
  destruct (lstrip_keeps_last (String.rev s) c Hc) as [u' ->].
  rewrite rev_append. done.
Qed.

Lemma strip_trimmed (s : string) :
  starts_with_space (Py.strip s) = false
  ∧ ends_with_space (Py.strip s) = false.
Proof.
  unfold Py.strip. split.
  - apply rstrip_keeps_start, lstrip_no_space.
  - apply rstrip_no_space.
Qed.

Lemma strip_fixed (s : string) :
  starts_with_space s = false → ends_with_space s = false → Py.strip s = s.
Proof.
  intros Hstart Hend. unfold Py.strip. rewrite lstrip_fixed by done.
  unfold Py.rstrip. rewrite lstrip_fixed by done. apply rev_involutive.
Qed.

(** X14: a cleaned cell never begins or ends with white space and is
    never the text None: an empty cell, and a cell whose trimmed text is
    None, are cleaned to the empty text.  Cleaning what is clean changes
    nothing. *)
Theorem clean_cell_value_trimmed (c : cell) :
  starts_with_space (clean_cell_value c) = false
  ∧ ends_with_space (clean_cell_value c) = false
  ∧ clean_cell_value c ≠ "None"
  ∧ clean_cell_value (Some (clean_cell_value c)) = clean_cell_value c
  ∧ clean_cell_value None = ""
  ∧ (∀ text, Py.strip text = "None" → clean_cell_value (Some text) = "").
Proof.
  assert (starts_with_space (clean_cell_value c) = false
          ∧ ends_with_space (clean_cell_value c) = false) as [Hstart Hend].
  { unfold clean_cell_value. destruct c as [text|]; [|done].
    case_bool_decide; [apply strip_trimmed | done]. }
  split_and!; try done.
  - apply clean_cell_value_not_None.
  - unfold clean_cell_value at 1. rewrite strip_fixed by done.
    rewrite bool_decide_eq_true_2; [done | apply clean_cell_value_not_None].
  - intros text Htext. unfold clean_cell_value. rewrite Htext. done.
Qed.

End clean_cell.

(** ** Folder names *)

(** Decides a Boolean goal by the cases of its [occurs] atoms. *)
Ltac occurs_cases :=
  repeat match goal with
         | |- context [occurs ?a ?b] => destruct (occurs a b)
         end; done.

Section folder_names.
Import ConvertToCsv.

Lemma occurs_append (c : ascii) (a b : string) :
  occurs c (a +:+ b) = occurs c a || occurs c b.
Proof.
  induction a as [|x a IH]; [done|].
  rewrite append_cons. cbn [occurs]. rewrite IH. by rewrite orb_assoc.
Qed.

Lemma occurs_replace (c old : ascii) (new s : string) :
  occurs c (Py.replace old new s)
  = (negb (bool_decide (c = old)) && occurs c s)
    || (occurs old s && occurs c new).
Proof.
  induction s as [|d s IH].
  { cbn. by rewrite andb_false_r. }
  cbn [Py.replace occurs].
  destruct (decide (d = old)) as [->|Hd].
  - rewrite occurs_append, IH.
    repeat case_bool_decide; subst; try done; simpl; occurs_cases.
  - cbn [occurs]. rewrite IH.
    repeat case_bool_decide; subst; try done; simpl; occurs_cases.
Qed.

Lemma replace_absent (old : ascii) (new s : string) :
  occurs old s = false → Py.replace old new s = s.
Proof.
  induction s as [|d s IH]; [done|]. cbn [Py.replace occurs].
  intros [Hd Hs]%orb_false_elim. apply bool_decide_eq_false in Hd.
  rewrite decide_False by done. by rewrite IH.
Qed.

Lemma folder_name_facts (topic_name : string) :
  let folder := replace_space_apostrophe topic_name in
  occurs " " folder = false
  ∧ occurs "'" folder = false
  ∧ (∀ c, c ≠ " "%char → c ≠ "'"%char → c ≠ "_"%char →
          occurs c folder = occurs c topic_name)
  ∧ (occurs " " topic_name = false → occurs "'" topic_name = false →
     folder = topic_name)
  ∧ replace_space_apostrophe folder = folder.
Proof.
  intros folder. subst folder. unfold replace_space_apostrophe.
  assert (occurs " " (Py.replace "'" "" (Py.replace " " "_" topic_name))
          = false) as Hspace.
  { rewrite !occurs_replace. simpl. occurs_cases. }
  assert (occurs "'" (Py.replace "'" "" (Py.replace " " "_" topic_name))
          = false) as Hapostrophe.
  { rewrite (occurs_replace "'" "'"). simpl. occurs_cases. }
  split_and!; try done.
  - intros c Hs Ha Hu. rewrite !occurs_replace.
    assert (occurs c "_" = false) as ->.
    { simpl. by rewrite bool_decide_eq_false_2 by done. }
    rewrite (bool_decide_eq_false_2 (c = "'"%char)) by done.
    rewrite (bool_decide_eq_false_2 (c = " "%char)) by done.
    simpl. occurs_cases.
  - intros Hs Ha. rewrite (replace_absent " ") by done.
    by rewrite replace_absent.
  - rewrite (replace_absent " ") by done. by rewrite replace_absent.
Qed.

(** X15: a folder name made from a topic name holds no space and no
    apostrophe; every other character but the underscore is in the folder
    name exactly when it is in the topic name; a topic name without space
    and apostrophe is its own folder name, and so is every folder name. *)
Theorem folder_name_characters (topic_name : string) :
  let folder := replace_space_apostrophe topic_name in
  occurs " " folder = false
  ∧ occurs "'" folder = false
  ∧ (∀ c, c ≠ " "%char → c ≠ "'"%char → c ≠ "_"%char →
          occurs c folder = occurs c topic_name)
  ∧ (occurs " " topic_name = false → occurs "'" topic_name = false →
     folder = topic_name)
  ∧ replace_space_apostrophe folder = folder.
Proof. apply folder_name_facts. Qed.

Lemma title_keeps_others (c : ascii) (previous_is_cased : bool) (s : string) :
  Py.islower c || Py.isupper c = false →
  occurs c (Py.title_from previous_is_cased s) = occurs c s.
Proof.
  intros Hc. revert previous_is_cased.
  assert (∀ d, Py.islower d || Py.isupper d = true →
               Py.islower (Py.upper d) || Py.isupper (Py.upper d) = true
               ∧ Py.islower (Py.lower d) || Py.isupper (Py.lower d) = true)
    as Hcase.
  { intros [[] [] [] [] [] [] [] []]; vm_compute; intros; done. }
  induction s as [|d s IH]; intros b; [done|]. cbn [Py.title_from occurs].
  destruct (Py.islower d || Py.isupper d) eqn:Hd.
  - destruct (Hcase d Hd) as [Hupper Hlower].
    cbn [occurs]. rewrite IH.
    rewrite (bool_decide_eq_false_2 (d = c)) by (intros ->; congruence).
    destruct b; rewrite bool_decide_eq_false_2; try done;
      intros Heq; rewrite Heq in *; congruence.
  - cbn [occurs]. by rewrite IH.
Qed.

(** X16: the folder name the study-content pass derives from a topic id
    holds no hyphen, no space and no apostrophe, whatever the topic id. *)
Theorem study_folder_characters (topic_id : string) :
  let folder := replace_space_apostrophe (topic_name_of_id topic_id) in
  occurs "-" folder = false
  ∧ occurs " " folder = false
  ∧ occurs "'" folder = false.
Proof.
  intros folder. subst folder.
  destruct (folder_name_facts (topic_name_of_id topic_id))
    as (Hspace & Hapostrophe & Hother & _).
  split_and!; try done.
  rewrite Hother by done. unfold topic_name_of_id, Py.title.
  rewrite title_keeps_others by done.
  rewrite !occurs_replace. simpl. occurs_cases.
Qed.

End folder_names.

(** ** The groups of the quiz pass *)

Section quiz_groups.
Import ConvertToCsv.

Lemma od_mem_keys {V} (d : odict V) (k : string) :
  od_mem k d = bool_decide (k ∈ d.*1).
Proof.
  unfold od_mem. apply bool_decide_ext. split.
  - intros [v Hv]. destruct (decide (k ∈ d.*1)) as [|Hnot]; [done|].
    apply od_get_None in Hnot. congruence.
  - intros Hin. destruct (od_get k d) eqn:Hget; [by eexists|].
    by apply od_get_None in Hget.
Qed.

Lemma group_keys_order mk (rows : list row) (d : odict (list row)) :
  (foldl (group_step mk) d rows).*1
  = foldl (λ acc x, if decide (x ∈ acc) then acc else acc ++ [x]) d.*1
          (filter (λ x, x ≠ "") ((λ r, get r "topic_id" "") <$> rows)).
Proof.
  revert d. induction rows as [|r rows IH]; intros d; [done|].
  cbn [foldl]. rewrite IH. clear IH. rewrite fmap_cons, filter_cons.
  unfold group_step. destruct (Py.truthy (get r "topic_id" "")) eqn:Htid.
  - apply truthy_true in Htid. rewrite decide_True by done.
    cbn [negb foldl]. rewrite add_to_topic_keys, od_mem_keys.
    by case_bool_decide; [rewrite decide_True | rewrite decide_False].
  - apply truthy_false in Htid. by rewrite decide_False by (by intros []).
Qed.

(** X17: the groups of the quiz pass.  There is one group per distinct
    non-empty topic id of the sheet, in the order in which the ids first
    occur; the group of an id holds exactly the rows with that id, in sheet
    order, and is never empty; rows without a topic id are in no group. *)
Theorem quiz_groups (quiz_data : list row) :
  (quiz_by_topic quiz_data).*1
  = first_occurrences
      (filter (λ x, x ≠ "") ((λ r, get r "topic_id" "") <$> quiz_data))
  ∧ NoDup (quiz_by_topic quiz_data).*1
  ∧ (∀ topic_id,
       od_get topic_id (quiz_by_topic quiz_data)
       = if decide (topic_id = "") then None
         else entry_of (rows_of_topic topic_id quiz_data))
  ∧ Forall (λ '(topic_id, questions),
              topic_id ≠ "" ∧ questions ≠ []
              ∧ questions
                = filter (λ r, get r "topic_id" "" = topic_id) quiz_data)
           (quiz_by_topic quiz_data).
Proof.
  split_and!.
  - unfold quiz_by_topic. by rewrite group_keys_order.
  - unfold quiz_by_topic. apply group_keys_NoDup. constructor.
  - intros t. apply quiz_by_topic_get.
  - apply Forall_forall. intros [t questions] Hin.
    by apply quiz_by_topic_elem in Hin.
Qed.

End quiz_groups.

(** ** Rows that share a key *)

Section last_row_wins.
Import ConvertToCsv.

Lemma subjects_fold_keeps (l : list row) (acc : gmap string string)
  (subject_key name : string) :
  acc !! subject_key = Some name →
  (∀ s' : row, s' ∈ l →
     ¬ (s' !! "subject_key" = Some subject_key ∧ is_Some (s' !! "name"))) →
  foldl (λ (subjects : gmap string string) (s : row),
           match s !! "subject_key", s !! "name" with
           | Some subject_key, Some name => <[subject_key := name]> subjects
           | _, _ => subjects
           end) acc l !! subject_key = Some name.
Proof.
  revert acc. induction l as [|s' l IH]; intros acc Hacc Hl; [done|].
  cbn [foldl]. apply IH.
  - destruct (s' !! "subject_key") as [k'|] eqn:Hk'; [|done].
    destruct (s' !! "name") as [n'|] eqn:Hn'; [|done].
    rewrite lookup_insert_ne; [done|]. intros ->.
    apply (Hl s'); [by left|]. split; [done | by eexists].
  - intros s'' Hs''. apply Hl. by right.
Qed.

(** X18: in the subject lookup the last Subjects row that has a given
    subject key and a name decides the name of that key. *)
Theorem subjects_last_row_wins (before after : list row) (s : row)
  (subject_key name : string) :
  s !! "subject_key" = Some subject_key →
  s !! "name" = Some name →
  (∀ s' : row, s' ∈ after →
     ¬ (s' !! "subject_key" = Some subject_key ∧ is_Some (s' !! "name"))) →
  subjects_of (before ++ s :: after) !! subject_key = Some name.
Proof.
  intros Hkey Hname Hafter. unfold subjects_of.
  rewrite foldl_app. cbn [foldl]. rewrite Hkey, Hname.
  apply subjects_fold_keeps; [apply lookup_insert_eq | done].
Qed.

End last_row_wins.

Section last_row_wins_example.
Import ConvertToCsv.

(** Two Subjects rows for [physics]: the second name is the one kept; the
    third row has the key and no name. *)
Lemma subjects_last_row_wins_witness :
  subjects_of
    ([list_to_map [("subject_key", "physics"); ("name", "Physik")]]
     ++ list_to_map [("subject_key", "physics"); ("name", "Physics")]
     :: [list_to_map [("subject_key", "physics")]])
  !! "physics" = Some "Physics".
Proof.
  apply subjects_last_row_wins; [done | done |].
  intros s' ->%list_elem_of_singleton [_ [name Hname]]. done.
Defined.

End last_row_wins_example.

(** ** One index row per topic *)

Section index_keys.
Import ConvertToCsv.

Lemma od_mem_false {V} (d : odict V) (k : string) :
  od_mem k d = false ↔ od_get k d = None.
Proof.
  unfold od_mem. rewrite bool_decide_eq_false. split.
  - intros Hnot. destruct (od_get k d); [|done]. destruct Hnot. by eexists.
  - intros ->. by intros [v ?].
Qed.

Lemma mapping_step_lookup (mapping : odict (odict string)) (topic : row)
  (subject_key topic_id : string) :
  topic_name_in (mapping_step mapping topic) subject_key topic_id
  = match topic !! "subject_key", topic !! "topic_id",
          topic !! "topic_name" with
    | Some sk, Some tid, Some tn =>
        if decide (sk = subject_key ∧ tid = topic_id) then Some tn
        else topic_name_in mapping subject_key topic_id
    | _, _, _ => topic_name_in mapping subject_key topic_id
    end.
Proof.
  unfold mapping_step.
  destruct (topic !! "subject_key") as [sk|]; [|done].
  destruct (topic !! "topic_id") as [tid|]; [|done].
  destruct (topic !! "topic_name") as [tn|]; [|done].
  unfold topic_name_in. rewrite od_get_alter.
  destruct (od_mem sk mapping) eqn:Hmem.
  - apply od_mem_true in Hmem as [topics Htopics].
    destruct (decide (sk = subject_key)) as [->|Hsk].
    + rewrite Htopics. simpl. rewrite od_get_set.
      destruct (decide (tid = topic_id)) as [->|Htid].
      * by rewrite decide_True.
      * by rewrite decide_False by (by intros [_ ?]).
    + by rewrite decide_False by (by intros [? _]).
  - apply od_mem_false in Hmem. rewrite od_get_set.
    destruct (decide (sk = subject_key)) as [->|Hsk].
    + simpl. rewrite Hmem.
      destruct (decide (tid = topic_id)) as [->|Htid].
      * by rewrite decide_True.
      * by rewrite decide_False by (by intros [_ ?]).
    + by rewrite decide_False by (by intros [? _]).
Qed.

Lemma mapping_fold_keeps (l : list row) (mapping : odict (odict string))
  (subject_key topic_id topic_name : string) :
  topic_name_in mapping subject_key topic_id = Some topic_name →
  (∀ t : row, t ∈ l →
     ¬ ∃ other, topic_row_is t subject_key topic_id other) →
  topic_name_in (foldl mapping_step mapping l) subject_key topic_id
  = Some topic_name.
Proof.
  revert mapping. induction l as [|t l IH]; intros m Hm Hl; [done|].
  cbn [foldl]. apply IH.
  - rewrite mapping_step_lookup.
    destruct (t !! "subject_key") as [sk|] eqn:Hsk; [|done].
    destruct (t !! "topic_id") as [tid|] eqn:Htid; [|done].
    destruct (t !! "topic_name") as [tn|] eqn:Htn; [|done].
    case_decide as Heq; [|done]. destruct Heq as [-> ->].
    destruct (Hl t); [by left|]. by exists tn.
  - intros t' Ht'. apply Hl. by right.
Qed.

Lemma NoDup_snoc (l : list string) (k : string) :
  NoDup l → k ∉ l → NoDup (l ++ [k]).
Proof.
  intros Hl Hk. apply NoDup_app. split_and!; [done | | apply NoDup_singleton].
  by intros x Hx ->%list_elem_of_singleton.
Qed.

Lemma od_set_NoDup {V} (d : odict V) (k : string) (v : V) :
  NoDup d.*1 → NoDup (od_set k v d).*1.
Proof.
  intros Hd. rewrite od_set_keys. destruct (od_mem k d) eqn:Hmem; [done|].
  apply NoDup_snoc; [done|]. by apply od_get_None, od_mem_false.
Qed.

Lemma mapping_step_distinct (mapping : odict (odict string)) (topic : row) :
  distinct_keys mapping → distinct_keys (mapping_step mapping topic).
Proof.
  intros [Hkeys Hinner]. unfold mapping_step.
  destruct (topic !! "subject_key") as [sk|]; [|done].
  destruct (topic !! "topic_id") as [tid|]; [|done].
  destruct (topic !! "topic_name") as [tn|]; [|done].
  set (m1 := if od_mem sk mapping then mapping else od_set sk [] mapping).
  assert (distinct_keys m1) as [Hkeys1 Hinner1].
  { subst m1. destruct (od_mem sk mapping) eqn:Hmem; [done|]. split.
    - by apply od_set_NoDup.
    - intros sk' topics [Heq|Hin]%od_set_elem; [|by eapply Hinner].
      simplify_eq. constructor. }
  split.
  - by rewrite od_alter_keys.
  - intros sk' topics [Hin|(v0 & Hv0 & Heq)]%od_alter_elem;
      [by eapply Hinner1|].
    simplify_eq. apply od_set_NoDup. by eapply Hinner1.
Qed.

Lemma mapping_distinct (topics_data : list row) :
  distinct_keys (foldl mapping_step [] topics_data).
Proof.
  assert (∀ l m, distinct_keys m → distinct_keys (foldl mapping_step m l))
    as Hgen.
  { induction l as [|t l IH]; intros m Hm; [done|].
    cbn [foldl]. by apply IH, mapping_step_distinct. }
  apply Hgen. split; [constructor|]. intros ?? Hin.
  by apply elem_of_nil in Hin.
Qed.

Lemma index_rows_cons (subjects : gmap string string) (subject_key : string)
  (topics : odict string) (mapping : odict (odict string)) :
  index_rows subjects ((subject_key, topics) :: mapping)
  = map (λ '((topic_id, topic_name) : string * string),
           index_row subject_key
             (from_option id subject_key (subjects !! subject_key))
             topic_id topic_name) topics
    ++ index_rows subjects mapping.
Proof. done. Qed.

Lemma index_rows_keys (subjects : gmap string string)
  (mapping : odict (odict string)) :
  index_key <$> index_rows subjects mapping
  = concat (map (λ '((subject_key, topics) : string * odict string),
                   (λ topic_id, (Some subject_key, Some topic_id))
                     <$> topics.*1) mapping).
Proof.
  induction mapping as [|[sk topics] mapping IH]; [done|].
  rewrite index_rows_cons, fmap_app, IH. cbn [map concat]. f_equal.
  clear. induction topics as [|[tid tn] topics IH]; [done|].
  cbn [map]. rewrite !fmap_cons. by rewrite IH.
Qed.

Lemma index_keys_NoDup (subjects : gmap string string)
  (mapping : odict (odict string)) :
  distinct_keys mapping → NoDup (index_key <$> index_rows subjects mapping).
Proof.
  rewrite index_rows_keys. intros [Hkeys Hinner].
  induction mapping as [|[sk topics] mapping IH]; [constructor|].
  cbn [map concat]. rewrite fmap_cons in Hkeys.
  apply NoDup_cons in Hkeys as [Hsk Hkeys].
  apply NoDup_app. split_and!.
  - apply (NoDup_fmap_2 _). apply (Hinner sk). by left.
  - intros key (tid & -> & _)%list_elem_of_fmap Hin.
    apply list_elem_of_In, in_concat in Hin as (l & Hl & Hin).
    apply in_map_iff in Hl as ([sk' topics'] & <- & Hst).
    apply list_elem_of_In, list_elem_of_fmap in Hin as (tid' & [= <- _] & _).
    apply Hsk. apply list_elem_of_In in Hst.
    by apply (list_elem_of_fmap_2 fst) in Hst.
  - apply IH; [done|]. intros sk' topics' Hin. apply (Hinner sk'). by right.
Qed.

Lemma index_rows_intro (subjects : gmap string string)
  (mapping : odict (odict string)) (subject_key topic_id topic_name : string) :
  topic_name_in mapping subject_key topic_id = Some topic_name →
  index_row subject_key
    (from_option id subject_key (subjects !! subject_key))
    topic_id topic_name
  ∈ index_rows subjects mapping.
Proof.
  unfold topic_name_in.
  destruct (od_get subject_key mapping) as [topics|] eqn:Htopics; [|done].
  intros Hname. apply od_get_Some_elem in Htopics, Hname.
  unfold index_rows. apply list_elem_of_In, in_concat.
  eexists. split.
  - apply in_map_iff. exists (subject_key, topics).
    split; [done | by apply list_elem_of_In].
  - apply in_map_iff. exists (topic_id, topic_name).
    split; [done | by apply list_elem_of_In].
Qed.

(** X19: the master index has one row per topic of a subject: no two of
    its rows have the same subject key and topic id.  Of the Topics rows
    that name the same subject key and topic id, the last one gives the
    topic name of the row. *)
Theorem one_index_row_per_topic (subjects_data topics_data : list row) :
  let index_data :=
    index_rows (subjects_of subjects_data)
               (foldl mapping_step [] topics_data) in
  NoDup ((λ r : row, (r !! "subject_key", r !! "topic_id")) <$> index_data)
  ∧ ∀ before after (topic : row) subject_key topic_id topic_name,
      topics_data = before ++ topic :: after →
      topic_row_is topic subject_key topic_id topic_name →
      (∀ t : row, t ∈ after →
         ¬ ∃ other, topic_row_is t subject_key topic_id other) →
      ∃ r : row, r ∈ index_data
        ∧ r !! "subject_key" = Some subject_key
        ∧ r !! "topic_id" = Some topic_id
        ∧ r !! "topic_name" = Some topic_name.
Proof.
  intros index_data. subst index_data. split.
  - apply index_keys_NoDup, mapping_distinct.
  - intros before after topic sk tid tn -> (Hsk & Htid & Htn) Hafter.
    eexists. split.
    + apply (index_rows_intro _ _ sk tid tn).
      rewrite foldl_app. cbn [foldl]. apply mapping_fold_keeps; [|done].
      rewrite mapping_step_lookup, Hsk, Htid, Htn.
      by rewrite decide_True.
    + done.
Qed.

End index_keys.

Section index_keys_example.
Import ConvertToCsv.

(** A topic named twice: the index has the later name. *)
Lemma one_index_row_per_topic_witness :
  let topics_data : list row :=
    [list_to_map [("subject_key", "physics"); ("topic_id", "phy-t1");
                  ("topic_name", "Motion")]]
    ++ list_to_map [("subject_key", "physics"); ("topic_id", "phy-t1");
                    ("topic_name", "Newton's Laws")]
    :: [] in
  ∃ r : row,
    r ∈ index_rows (subjects_of []) (foldl mapping_step [] topics_data)
    ∧ r !! "subject_key" = Some "physics"
    ∧ r !! "topic_id" = Some "phy-t1"
    ∧ r !! "topic_name" = Some "Newton's Laws".
Proof.
  intros topics_data.
  destruct (one_index_row_per_topic [] topics_data) as [_ Hlast].
  eapply Hlast; [reflexivity | done |].
  intros t Ht. by apply elem_of_nil in Ht.
Defined.

End index_keys_example.

(** ** A master workbook that cannot be read *)

Section unreadable_master.
Import ConvertToCsv PathLib.
Variable BASE_DIR : path.
Variable load_workbook : path → result workbook.

(** X20: when the master workbook cannot be opened, reading the mapping
    logs one error per sheet and returns an empty subject lookup and an
    empty mapping, without raising.  With no index row - as then - the
    master index step logs a warning for each of the three files and
    creates none: the file system stays as it is. *)
Theorem unreadable_master_writes_no_index (w : world) (e : exn) :
  load_workbook (DATA_DIR BASE_DIR // "StudyHub_Master.xlsx") = Raise e →
  get_subject_topic_mapping BASE_DIR load_workbook w
  = (World (console w
            ++ ["  [ERROR] Error reading StudyHub_Master.xlsx/Subjects: "
                +:+ exn_str e;
                "  [ERROR] Error reading StudyHub_Master.xlsx/Topics: "
                +:+ exn_str e])
           (fs w),
     Ok (∅, []))
  ∧ ∀ (subjects : gmap string string) (mapping : odict (odict string))
      (w' : world),
      index_rows subjects mapping = [] →
      create_master_indices BASE_DIR subjects mapping w'
      = (World (console w'
                ++ [LF +:+ "[*] Creating master index files...";
                    "  [WARN] No data to write to "
                    +:+ str (QUESTIONNAIRE_DIR BASE_DIR // "_master_index.csv");
                    "  [WARN] No data to write to "
                    +:+ str (STUDYGUIDE_DIR BASE_DIR // "_master_index.csv");
                    "  [WARN] No data to write to "
                    +:+ str (HANDOUT_DIR BASE_DIR // "_master_index.csv")])
               (fs w'),
         Ok tt).
Proof.
  intros Hload. split.
  - unfold get_subject_topic_mapping, read_excel_sheet. run_monad.
    assert (name (DATA_DIR BASE_DIR // "StudyHub_Master.xlsx")
            = "StudyHub_Master.xlsx") as Hname.
    { unfold joinpath, name. simpl. apply last_last. }
    rewrite Hload. simpl. rewrite Hname. by rewrite <- app_assoc.
  - intros subjects mapping w' Hempty.
    unfold create_master_indices, write_csv. rewrite Hempty.
    run_monad. simpl. by rewrite <- !app_assoc.
Qed.

End unreadable_master.

Section unreadable_master_example.
Import ConvertToCsv PathLib.

(** No workbook can be opened: two errors, then no index file. *)
Lemma unreadable_master_writes_no_index_witness :
  (get_subject_topic_mapping ["app"]
     (λ _, Raise (Exception "No such file")) Example.empty_world).2
  = Ok (∅, []).
Proof.
  destruct (unreadable_master_writes_no_index ["app"]
              (λ _, Raise (Exception "No such file")) Example.empty_world
              (Exception "No such file") eq_refl) as [-> _].
  reflexivity.
Defined.

End unreadable_master_example.

(** ** The entries of a report *)

Section report_entries.
Import ValidateStructure PathLib.

Lemma with_path_prefix (tag msg : string) (p : option string) :
  ∃ rest, with_path (tag +:+ msg) p = tag +:+ rest.
Proof.
  unfold with_path. destruct p as [p|]; [|by eexists].
  destruct (Py.truthy p); [|by eexists].
  exists (msg +:+ " (" +:+ p +:+ ")"). apply append_assoc.
Qed.

(** X6: every entry of the report a run prints carries its tag: each
    error begins with "[ERROR] " and each warning with "[WARN] ". *)
Theorem entries_are_tagged (os : file_system) (PUBLIC_DIR : path) :
  let final := report (run os PUBLIC_DIR).1 in
  Forall (λ entry, ∃ rest, entry = "[ERROR] " +:+ rest) (errors final)
  ∧ Forall (λ entry, ∃ rest, entry = "[WARN] " +:+ rest) (warnings final)
  ∧ stdout (run os PUBLIC_DIR).1 = [final].
Proof.
  intros final. subst final.
  set (tagged := λ s : state,
    Forall (λ entry, ∃ rest, entry = "[ERROR] " +:+ rest) (errors (report s))
    ∧ Forall (λ entry, ∃ rest, entry = "[WARN] " +:+ rest)
             (warnings (report s))).
  assert (∀ msg p, holds tagged (log_error msg p) (λ _, True)) as Herror.
  { intros msg p. apply holds_modify. intros s [He Hw]. split; [|done].
    simpl. apply Forall_app. split; [done|]. apply Forall_singleton.
    apply with_path_prefix. }
  assert (holds tagged (main os PUBLIC_DIR) (λ _, True)) as Hmain.
  { unfold main. cbv beta delta [mbind M_bind mret M_ret].
    eapply (holds_bind _ _ _ (λ _, True)).
    - apply holds_try_except; [|intros e; apply Herror].
      apply validate_structure_holds.
      + intros f [-> | ->] msg p; [apply Herror|].
        apply holds_modify. intros s [He Hw]. split; [done|].
        simpl. apply Forall_app. split; [done|]. apply Forall_singleton.
        apply with_path_prefix.
      + intros f [-> | ->] n; by apply holds_modify.
    - intros _ _. by apply holds_modify. }
  destruct (Hmain (State initial_report [])) as [[He Hw] _].
  { split; constructor. }
  split_and!; [done | done |].
  unfold run. by rewrite main_run.
Qed.

End report_entries.
